(** * Ecosense WebSocket connection manager: model and properties

    Shallow embedding of [src/server/websocket.ts] (session router,
    per-device isolated servers, isolated worker processes, idle reaper)
    and of the worker script that [createIsolatedProcess] forks.

    Conventions.
    - Module-level [Map]s whose iteration order is never observed are
      [gmap]s; [activeConnections], which the reaper iterates, is an
      insertion-ordered association list.
    - Object identities ([WebSocket], servers, child processes) are
      handles drawn from the environment.
    - Calls into libraries and external collaborators ([ws.send],
      [ws.close], [saveChatMessage], [console.log], ...) are recorded, in
      program order, as a list of [effect]s.
    - Handlers run in a small state/exception/trace monad [M]; clock
      reads and results of external calls are handler arguments.
    - Every listener the code installs is a handler of its own; [step]
      and [run] put them together as the event loop. *)

From Stdlib Require Import ZArith Floats Ascii.
From stdpp Require Import gmap strings list fin_maps pretty.

Local Open Scope string_scope.
Local Open Scope list_scope.
Local Open Scope Z_scope.

(** ** JavaScript values *)

(** What [JSON.parse] can return.  Numbers are IEEE doubles. *)
#[warnings="-register-all"]
Inductive value :=
| JNull
| JBool (b : bool)
| JNum (x : float)
| JStr (s : string)
| JArr (items : list value)
| JObj (props : gmap string value).

Inductive js_error :=
| SyntaxError           (* JSON.parse on malformed text *)
| TypeError             (* property read on null, call of a non-function *)
| RangeError            (* listen on an invalid port *)
| UnhandledRejection    (* a rejected promise nobody handles *)
| ExternalError (tag : string).   (* thrown by an external collaborator *)

(** Result of a JS expression or statement. *)
Inductive outcome (A : Type) :=
| Ret (a : A)
| Throw (e : js_error).
Arguments Ret {A} a.
Arguments Throw {A} e.

(** [v.k] for the property names this program reads ([sessionId], [type],
    [content], [channel]): none of them is defined on a prototype, so the
    read yields an own property of an object, [undefined] ([None]) on any
    other non-null value, and throws on [null]. *)
Definition get_prop (v : value) (k : string) : outcome (option value) :=
  match v with
  | JNull => Throw TypeError
  | JObj props => Ret (props !! k)
  | _ => Ret None
  end.

(** ToBoolean; [None] is [undefined]. *)
Definition truthy (o : option value) : bool :=
  match o with
  | None => false
  | Some JNull => false
  | Some (JBool b) => b
  | Some (JNum x) => negb (PrimFloat.eqb x 0%float) && negb (PrimFloat.is_nan x)
  | Some (JStr s) => negb (String.eqb s "")
  | Some (JArr _) => true
  | Some (JObj _) => true
  end.

(** [o === s] for a string literal [s]. *)
Definition strict_eq_str (o : option value) (s : string) : bool :=
  match o with
  | Some (JStr t) => String.eqb t s
  | _ => false
  end.

(** Own enumerable properties copied by the object spread [{...v}]. *)
Definition char_props (s : string) : list (string * value) :=
  imap (fun i a => (pretty i, JStr (String a EmptyString))) (String.list_ascii_of_string s).

Definition spread (v : value) : gmap string value :=
  match v with
  | JObj props => props
  | JArr items => list_to_map (imap (fun i x => (pretty i, x)) items)
  | JStr s => list_to_map (char_props s)
  | _ => ∅
  end.

(** ** Program state *)

Definition WebSocket := nat.
Definition WebSocketServer := nat.
Definition HttpServer := nat.
Definition ChildProcess := nat.

Record IsolatedSession := {
  ws : WebSocket;
  server : WebSocketServer;
  ip : string;
  deviceId : string
}.

(** [Date] values are milliseconds since the epoch. *)
Record DeviceConnection := {
  dc_deviceId : string;
  dc_port : Z;
  connectedAt : Z;
  lastActive : Z
}.

Record IsolatedProcess := {
  process : ChildProcess;
  ip_port : Z;
  ip_deviceId : string
}.

(** Value type of [deviceServers]; the record has no method of its own. *)
Record DeviceServer := {
  httpServer : HttpServer;
  wss : WebSocketServer;
  ds_ws : option WebSocket
}.

(** The module-level variables of websocket.ts, plus the [portCounter]
    cells captured by the closures that [createDeviceIsolatedServer]
    returns (one cell per call, addressed by a factory handle). *)
Record Globals := {
  activeIsolatedSessions : gmap string IsolatedSession;
  activeConnections : list (string * DeviceConnection);
  activeProcesses : gmap string IsolatedProcess;
  deviceServers : gmap string DeviceServer;
  portCounter : Z;
  localPortCounters : gmap nat Z
}.

(** State at module load. *)
Definition initial : Globals := {|
  activeIsolatedSessions := ∅;
  activeConnections := [];
  activeProcesses := ∅;
  deviceServers := ∅;
  portCounter := 3000;
  localPortCounters := ∅
|}.

(** ** Effects *)

(** Argument of [ws.send]: [JSON.stringify] of a value, or the received
    message handed back as it is. *)
Inductive payload :=
| JSON_stringify (v : value)
| Verbatim (message : list Byte.byte).

(** One constructor per logging site. *)
Inductive log_line :=
| LogClientConnected
| LogClientDisconnected
| LogUnknownType (type : option value)
| LogSubscribed (channel : option value)
| ErrIsolatedSession (e : js_error)
| LogIsolatedServer (deviceId : string) (port : Z).

Inductive effect :=
| ws_send (ws : WebSocket) (data : payload)
| ws_close (ws : WebSocket) (code : Z) (reason : string)
| call_saveChatMessage (deviceId : string) (content : option value)
| call_getChatHistory (deviceId : string)
| http_listen (srv : HttpServer) (port : Z)
| http_close (srv : HttpServer)
| fork (script : string) (args : list string)
| kill (p : ChildProcess)
| console (l : log_line).

(** ** The handler monad *)

Definition M (A : Type) : Type := Globals -> outcome A * Globals * list effect.

Definition ret {A} (a : A) : M A := fun g => (Ret a, g, []).
Definition throw {A} (e : js_error) : M A := fun g => (Throw e, g, []).
Definition bind {A B} (m : M A) (k : A -> M B) : M B :=
  fun g =>
    match m g with
    | (Ret a, g1, t1) => let '(r, g2, t2) := k a g1 in (r, g2, t1 ++ t2)
    | (Throw e, g1, t1) => (Throw e, g1, t1)
    end.
Definition try_catch {A} (body : M A) (handler : js_error -> M A) : M A :=
  fun g =>
    match body g with
    | (Ret a, g1, t1) => (Ret a, g1, t1)
    | (Throw e, g1, t1) => let '(r, g2, t2) := handler e g1 in (r, g2, t1 ++ t2)
    end.
Definition emit (e : effect) : M unit := fun g => (Ret tt, g, [e]).
Definition get : M Globals := fun g => (Ret g, g, []).
Definition put (g : Globals) : M unit := fun _ => (Ret tt, g, []).
Definition lift {A} (o : outcome A) : M A := fun g => (o, g, []).

Notation "x <- m ;; k" := (bind m (fun x => k))
  (at level 100, m at next level, right associativity).
Notation "m ;;; k" := (bind m (fun _ => k))
  (at level 100, right associativity).

Definition trace_of {A} (r : outcome A * Globals * list effect) : list effect := r.2.
Definition state_of {A} (r : outcome A * Globals * list effect) : Globals := r.1.2.
Definition result_of {A} (r : outcome A * Globals * list effect) : outcome A := r.1.1.

(** ** createWebSocketServer: upgrade broker and message router *)

(** The parts of the upgrade request the handler reads. *)
Record Request := {
  remoteAddress : option string;
  sec_websocket_key : option string
}.

(** [a || b] on strings: the empty string and [undefined] are falsy. *)
Definition or_else (a : option string) (b : string) : string :=
  match a with
  | Some s => if String.eqb s "" then b else s
  | None => b
  end.

(** Lines 51-53; [now] is the value of [Date.now()]. *)
Definition derive_ip (request : Request) : string :=
  or_else (remoteAddress request) "unknown".

Definition derive_deviceId (request : Request) (now : Z) : string :=
  or_else (sec_websocket_key request) (derive_ip request +:+ "-" +:+ pretty now).

(** The variables captured by the closures of one connection. *)
Record Conn := {
  c_ws : WebSocket;
  c_isolatedWss : WebSocketServer;
  c_ip : string;
  c_deviceId : string;
  c_sessionId : string
}.

Definition session_of (c : Conn) : IsolatedSession :=
  {| ws := c_ws c; server := c_isolatedWss c; ip := c_ip c; deviceId := c_deviceId c |}.

Definition set_sessions (f : gmap string IsolatedSession -> gmap string IsolatedSession)
    (g : Globals) : Globals :=
  {| activeIsolatedSessions := f (activeIsolatedSessions g);
     activeConnections := activeConnections g;
     activeProcesses := activeProcesses g;
     deviceServers := deviceServers g;
     portCounter := portCounter g;
     localPortCounters := localPortCounters g |}.

Definition session_init_frame (c : Conn) : value :=
  JObj (<["type" := JStr "session_init"]>
       (<["sessionId" := JStr (c_sessionId c)]>
       (<["deviceId" := JStr (c_deviceId c)]>
       (<["ipAddress" := JStr (c_ip c)]> ∅)))).

Definition welcome_frame (c : Conn) : value :=
  JObj (<["type" := JStr "connection"]>
       (<["deviceId" := JStr (c_deviceId c)]>
       (<["message" := JStr "Connected to Ecosense WebSocket Server"]> ∅))).

Definition history_frame (history : value) : value :=
  JObj (<["type" := JStr "history"]> (<["messages" := history]> ∅)).

(** Lines 58-91, the synchronous part of the ['connection'] listener.
    [now] is the [Date.now()] read at line 59.  Returns the closure
    environment shared by the ['message'] and ['close'] listeners. *)
Definition on_connection (isolatedWss : WebSocketServer) (ip deviceId : string)
    (ws : WebSocket) (now : Z) : M Conn :=
  let sessionId := deviceId +:+ "-" +:+ pretty now in
  let c := {| c_ws := ws; c_isolatedWss := isolatedWss; c_ip := ip;
              c_deviceId := deviceId; c_sessionId := sessionId |} in
  g <- get ;;
  put (set_sessions (insert sessionId (session_of c)) g) ;;;
  emit (console LogClientConnected) ;;;
  emit (ws_send ws (JSON_stringify (session_init_frame c))) ;;;
  emit (ws_send ws (JSON_stringify (welcome_frame c))) ;;;
  emit (call_getChatHistory deviceId) ;;;
  ret c.

(** Modelled from the spec: [getChatHistory] is imported from ./storage,
    which is not among the sources; the interface description gives it
    as asynchronous, yielding the ordered sequence of prior messages, and
    liable to fail.  This is how the promise it returns settles. *)
Inductive settlement :=
| Fulfilled (history : value)
| Rejected
| Pending.

(** Lines 86-91: [then] is given a fulfilment callback only.  A
    rejection is therefore handled by nobody, and Node raises an
    unhandled rejection as an uncaught error: no frame is sent and the
    process ends, taking every socket with it. *)
Definition on_history (c : Conn) (s : settlement) : M unit :=
  match s with
  | Fulfilled history => emit (ws_send (c_ws c) (JSON_stringify (history_frame history)))
  | Rejected => throw UnhandledRejection
  | Pending => ret tt
  end.

(** Lines 49-139 for a request whose handshake completes: [handleUpgrade]
    calls back with the new socket [ws] and the listener above runs.
    [t0] and [t1] are the two successive clock reads. *)
Definition on_upgrade (request : Request) (isolatedWss : WebSocketServer)
    (ws : WebSocket) (t0 t1 : Z) : M Conn :=
  let ip := derive_ip request in
  let deviceId := derive_deviceId request t0 in
  on_connection isolatedWss ip deviceId ws t1.

(** An inbound frame as [JSON.parse (message.toString ())] sees it: text
    that is not JSON, or text denoting a value. *)
Inductive RawData :=
| NotJSON (text : string)
| JSONText (v : value).

Definition JSON_parse (message : RawData) : M value :=
  match message with
  | NotJSON _ => throw SyntaxError
  | JSONText v => ret v
  end.

(** [activeIsolatedSessions.has (x)]: the keys are strings. *)
Definition sessions_has (g : Globals) (x : option value) : bool :=
  match x with
  | Some (JStr s) => bool_decide (is_Some (activeIsolatedSessions g !! s))
  | _ => false
  end.

(** Lines 149-158.  [JSON.stringify] leaves out a key whose value is
    [undefined]. *)
Definition subscribed_frame (channel : option value) : value :=
  JObj (<["type" := JStr "subscribed"]>
        match channel with
        | Some ch => <["channel" := ch]> ∅
        | None => ∅
        end).

(** Whether the template literal [`${v}`] throws.  An object made by
    [JSON.parse] converts to a string through [Object.prototype.toString]
    unless it has a key "toString" of its own: that value is never
    callable, [valueOf] gives back the object, and the conversion ends
    in a TypeError.  A list converts by joining its elements, each
    converted in turn ([null] giving the empty string). *)
Fixpoint ToString_throws (v : value) : bool :=
  match v with
  | JObj props => bool_decide (is_Some (props !! "toString"))
  | JArr items => existsb ToString_throws items
  | _ => false
  end.

Definition template_throws (x : option value) : bool :=
  match x with
  | Some v => ToString_throws v
  | None => false
  end.

(** Line 151 interpolates [channel] into the log line before line 154
    sends. *)
Definition handleSubscription (ws : WebSocket) (message : value) : M unit :=
  channel <- lift (get_prop message "channel") ;;
  (if template_throws channel then throw TypeError else ret tt) ;;;
  emit (console (LogSubscribed channel)) ;;;
  emit (ws_send ws (JSON_stringify (subscribed_frame channel))).

(** Modelled from the spec: [saveChatMessage] is imported from
    ./storage, which is not among the sources; the interface description
    gives it as asynchronous and liable to fail.  At the call site it
    returns a promise, whose later fate the caller never observes, or
    throws synchronously. *)
Inductive save_result :=
| SaveFulfilled
| SaveRejected
| SaveThrows (e : js_error).

Definition saveChatMessage (deviceId : string) (content : option value)
    (r : save_result) : M unit :=
  emit (call_saveChatMessage deviceId content) ;;;
  match r with
  | SaveThrows e => throw e
  | _ => ret tt
  end.

Definition echo_frame (c : Conn) (parsed : value) (iso : string) : value :=
  JObj (<["timestamp" := JStr iso]>
       (<["sessionId" := JStr (c_sessionId c)]> (spread parsed))).

(** Lines 94-127.  [iso] is [new Date ().toISOString ()] at the time of
    the call, [r] the behaviour of the persistence call. *)
Definition on_message (c : Conn) (iso : string) (r : save_result)
    (message : RawData) : M unit :=
  try_catch
    (parsed <- JSON_parse message ;;
     sid <- lift (get_prop parsed "sessionId") ;;
     g <- get ;;
     if negb (truthy sid) || negb (sessions_has g sid) then
       emit (ws_close (c_ws c) 1008 "Invalid session")
     else
       type <- lift (get_prop parsed "type") ;;
       if strict_eq_str type "chat" then
         emit (ws_send (c_ws c) (JSON_stringify (echo_frame c parsed iso))) ;;;
         content <- lift (get_prop parsed "content") ;;
         saveChatMessage (c_deviceId c) content r
       else if strict_eq_str type "subscribe" then
         handleSubscription (c_ws c) parsed
       else
         emit (console (LogUnknownType type)))
    (fun error => emit (console (ErrIsolatedSession error))).

(** Lines 129-132. *)
Definition on_close (c : Conn) : M unit :=
  emit (console LogClientDisconnected) ;;;
  g <- get ;;
  put (set_sessions (delete (c_sessionId c)) g).

(** ** Insertion-ordered [Map] with string keys *)

Fixpoint amap_set {V} (k : string) (v : V) (m : list (string * V)) : list (string * V) :=
  match m with
  | [] => [(k, v)]
  | (k', v') :: m' =>
      if String.eqb k' k then (k, v) :: m' else (k', v') :: amap_set k v m'
  end.

Fixpoint amap_get {V} (k : string) (m : list (string * V)) : option V :=
  match m with
  | [] => None
  | (k', v') :: m' => if String.eqb k' k then Some v' else amap_get k m'
  end.

Definition amap_delete {V} (k : string) (m : list (string * V)) : list (string * V) :=
  List.filter (fun kv => negb (String.eqb kv.1 k)) m.

(** [for (const x of xs) body]: an exception leaves the loop. *)
Fixpoint for_of {A} (xs : list A) (body : A -> M unit) : M unit :=
  match xs with
  | [] => ret tt
  | x :: xs' => body x ;;; for_of xs' body
  end.

(** ** Numbers used as ports *)

(** The integers that a Number holds exactly and prints in full. *)
Definition safe_integer (x : Z) : Prop := - 2 ^ 53 <= x <= 2 ^ 53.

(** [x++] on a port counter holding an integer Number.  Below 2^53 the
    sum [x + 1] is exact.  From 2^53 on Numbers are spaced 2 apart, and
    from 2^54 on at least 4: [x + 1] lies half way between [x] and
    [x + 2] and goes to the one with the even significand [x / 2], or
    lies nearer to [x]; so the variable stays where it is, or, for an
    odd significand below 2^54, moves to [x + 2].  (A counter never
    moves below its start, 3000 or the base port; below -2^53, and for a
    base port that is no integer, the sum is not modelled.) *)
Definition js_succ (x : Z) : Z :=
  if x <? 2 ^ 53 then x + 1
  else if (x <? 2 ^ 54) && Z.odd (x / 2) then x + 2
  else x.

(** [port.toString ()] of a safe integer: plain decimal digits.  (Above
    2^53 a Number prints the shortest digits that read back, and from
    1e21 on in exponent form; such values are outside [safe_integer].) *)
Definition Number_toString (x : Z) : string := pretty x.

(** Node's port check in [server.listen (port)]. *)
Definition listen (srv : HttpServer) (port : Z) : M unit :=
  if (0 <=? port) && (port <=? 65535) then emit (http_listen srv port)
  else throw RangeError.

(** ** createDeviceIsolatedServer: in-process isolation *)

Definition set_localPortCounters (f : gmap nat Z -> gmap nat Z) (g : Globals) : Globals :=
  {| activeIsolatedSessions := activeIsolatedSessions g;
     activeConnections := activeConnections g;
     activeProcesses := activeProcesses g;
     deviceServers := deviceServers g;
     portCounter := portCounter g;
     localPortCounters := f (localPortCounters g) |}.

Definition set_connections
    (f : list (string * DeviceConnection) -> list (string * DeviceConnection))
    (g : Globals) : Globals :=
  {| activeIsolatedSessions := activeIsolatedSessions g;
     activeConnections := f (activeConnections g);
     activeProcesses := activeProcesses g;
     deviceServers := deviceServers g;
     portCounter := portCounter g;
     localPortCounters := localPortCounters g |}.

Definition set_deviceServers (f : gmap string DeviceServer -> gmap string DeviceServer)
    (g : Globals) : Globals :=
  {| activeIsolatedSessions := activeIsolatedSessions g;
     activeConnections := activeConnections g;
     activeProcesses := activeProcesses g;
     deviceServers := f (deviceServers g);
     portCounter := portCounter g;
     localPortCounters := localPortCounters g |}.

Definition set_processes (f : gmap string IsolatedProcess -> gmap string IsolatedProcess)
    (g : Globals) : Globals :=
  {| activeIsolatedSessions := activeIsolatedSessions g;
     activeConnections := activeConnections g;
     activeProcesses := f (activeProcesses g);
     deviceServers := deviceServers g;
     portCounter := portCounter g;
     localPortCounters := localPortCounters g |}.

Definition set_portCounter (p : Z) (g : Globals) : Globals :=
  {| activeIsolatedSessions := activeIsolatedSessions g;
     activeConnections := activeConnections g;
     activeProcesses := activeProcesses g;
     deviceServers := deviceServers g;
     portCounter := p;
     localPortCounters := localPortCounters g |}.

(** Lines 173-180: [let portCounter = basePort] makes a counter of this
    call's own, shadowing the module-level one.  The result is the
    handle of the returned object, a new one at every call. *)
Definition createDeviceIsolatedServer (basePort : Z) : M nat :=
  g <- get ;;
  let factory := fresh (dom (localPortCounters g)) in
  put (set_localPortCounters (insert factory basePort) g) ;;;
  ret factory.

(** The object [createForDevice] returns, with what its [close] closes
    over. *)
Record DeviceHandle := {
  h_port : Z;
  h_httpServer : HttpServer;
  h_wss : WebSocketServer;
  h_deviceId : string
}.

(** Lines 182-221 up to the return; the ['connection'] listener is
    [on_device_connection] below.  A closure always has its counter, so
    the [None] branch is not reachable from [createDeviceIsolatedServer]. *)
Definition createForDevice (factory : nat) (deviceId : string)
    (httpServer : HttpServer) (wss : WebSocketServer) : M DeviceHandle :=
  g <- get ;;
  match localPortCounters g !! factory with
  | None => throw TypeError
  | Some port =>
      put (set_localPortCounters (insert factory (js_succ port)) g) ;;;
      listen httpServer port ;;;
      ret {| h_port := port; h_httpServer := httpServer; h_wss := wss;
             h_deviceId := deviceId |}
  end.

(** Lines 210-212, the [listen] callback. *)
Definition on_listening (h : DeviceHandle) : M unit :=
  emit (console (LogIsolatedServer (h_deviceId h) (h_port h))).

(** Lines 187-208 without the nested listeners; [t1] and [t2] are the
    two [new Date ()] reads. *)
Definition on_device_connection (h : DeviceHandle) (ws : WebSocket) (t1 t2 : Z) : M unit :=
  g <- get ;;
  put (set_deviceServers
         (insert (h_deviceId h)
            {| httpServer := h_httpServer h; wss := h_wss h; ds_ws := Some ws |}) g) ;;;
  let deviceConnection :=
    {| dc_deviceId := h_deviceId h; dc_port := h_port h;
       connectedAt := t1; lastActive := t2 |} in
  g <- get ;;
  put (set_connections (amap_set (h_deviceId h) deviceConnection) g).

(** Lines 191-194. *)
Definition on_device_message (ws : WebSocket) (message : list Byte.byte) : M unit :=
  emit (ws_send ws (Verbatim message)).

(** Lines 205-207. *)
Definition on_device_close (h : DeviceHandle) : M unit :=
  g <- get ;;
  put (set_connections (amap_delete (h_deviceId h)) g).

(** Lines 216-219. *)
Definition handle_close (h : DeviceHandle) : M unit :=
  emit (http_close (h_httpServer h)) ;;;
  g <- get ;;
  put (set_deviceServers (delete (h_deviceId h)) g).

(** ** createIsolatedProcess: out-of-process isolation *)

Definition worker_args (deviceId : string) (port : Z) : list string :=
  ["--device-id"; deviceId; "--port"; Number_toString port].

Record ProcessHandle := {
  ph_port : Z;
  ph_worker : ChildProcess
}.

(** Lines 225-250; [worker] is the handle [fork] returns. *)
Definition createIsolatedProcess (deviceId : string) (worker : ChildProcess)
    : M ProcessHandle :=
  g <- get ;;
  let port := portCounter g in
  put (set_portCounter (js_succ port) g) ;;;
  emit (fork "worker.js" (worker_args deviceId port)) ;;;
  let processInfo := {| process := worker; ip_port := port; ip_deviceId := deviceId |} in
  g <- get ;;
  put (set_processes (insert deviceId processInfo) g) ;;;
  ret {| ph_port := port; ph_worker := worker |}.

(** Lines 242-244. *)
Definition on_worker_exit (deviceId : string) : M unit :=
  g <- get ;;
  put (set_processes (delete deviceId) g).

(** Line 248. *)
Definition disconnect (h : ProcessHandle) : M unit :=
  emit (kill (ph_worker h)).

(** ** cleanupInactiveDevices: the idle reaper *)

Definition idle_threshold : Z := 30 * 60 * 1000.

(** [x?.close ()] on an entry of [deviceServers]: skipped when the entry
    is [undefined]; otherwise [close] is looked up on an object that has
    the properties [httpServer], [wss] and [ws] only, and calling the
    [undefined] it yields throws. *)
Definition optional_close (entry : option DeviceServer) : M unit :=
  match entry with
  | None => ret tt
  | Some _ => throw TypeError
  end.

Definition reap (now : Z) (entry : string * DeviceConnection) : M unit :=
  let '(deviceId, conn) := entry in
  if idle_threshold <? now - lastActive conn then
    g <- get ;;
    optional_close (deviceServers g !! deviceId) ;;;
    g <- get ;;
    put (set_connections (amap_delete deviceId) g)
  else ret tt.

(** Lines 261-269; [now] is [new Date ()].  Deleting the entry under the
    cursor does not disturb the iteration over the rest. *)
Definition cleanupInactiveDevices (now : Z) : M unit :=
  g <- get ;;
  for_of (activeConnections g) (reap now).

(** ** The worker script *)

Module Worker.

(** [args.indexOf (x)]: position of the first occurrence, or -1. *)
Fixpoint indexOf (x : string) (args : list string) : Z :=
  match args with
  | [] => -1
  | a :: args' =>
      if String.eqb a x then 0
      else let i := indexOf x args' in if i <? 0 then -1 else i + 1
  end.

(** [args[i]]: [undefined] outside the array. *)
Definition at_index (args : list string) (i : Z) : option string :=
  if i <? 0 then None else args !! Z.to_nat i.

(** Strings are the UTF-8 bytes of the text.  White space in the ASCII
    range: TAB, LF, VT, FF, CR and SP. *)
Definition is_whitespace (a : ascii) : bool :=
  let n := nat_of_ascii a in
  ((9 <=? n) && (n <=? 13))%nat || (n =? 32)%nat.

(** White space of two bytes: U+00A0. *)
Definition is_whitespace2 (a b : ascii) : bool :=
  ((nat_of_ascii a =? 194) && (nat_of_ascii b =? 160))%nat.

(** White space of three bytes: U+1680, U+2000 to U+200A, U+2028,
    U+2029, U+202F, U+205F, U+3000 and U+FEFF. *)
Definition is_whitespace3 (a b c : ascii) : bool :=
  let '(x, y, z) := (nat_of_ascii a, nat_of_ascii b, nat_of_ascii c) in
  ((x =? 225) && (y =? 154) && (z =? 128)
   || (x =? 226) && (y =? 128)
      && ((128 <=? z) && (z <=? 138) || (z =? 168) || (z =? 169) || (z =? 175))
   || (x =? 226) && (y =? 129) && (z =? 159)
   || (x =? 227) && (y =? 128) && (z =? 128)
   || (x =? 239) && (y =? 187) && (z =? 191))%nat.

(** First byte of a white space of two or three bytes. *)
Definition is_whitespace_lead (a : ascii) : bool :=
  let n := nat_of_ascii a in
  ((n =? 194) || (n =? 225) || (n =? 226) || (n =? 227) || (n =? 239))%nat.

Fixpoint trim_start (s : string) : string :=
  match s with
  | String a s1 =>
      if is_whitespace a then trim_start s1
      else if negb (is_whitespace_lead a) then s
      else
        match s1 with
        | String b s2 =>
            if is_whitespace2 a b then trim_start s2
            else
              match s2 with
              | String c s3 => if is_whitespace3 a b c then trim_start s3 else s
              | EmptyString => s
              end
        | EmptyString => s
        end
  | EmptyString => s
  end.

Definition digit_value (a : ascii) : option Z :=
  let n := nat_of_ascii a in
  if ((48 <=? n) && (n <=? 57))%nat then Some (Z.of_nat n - 48)
  else if ((97 <=? n) && (n <=? 102))%nat then Some (Z.of_nat n - 87)
  else if ((65 <=? n) && (n <=? 70))%nat then Some (Z.of_nat n - 55)
  else None.

(** Value of the longest prefix of radix-[R] digits, given the value
    [acc] of the [seen] digits before it. *)
Fixpoint digits (R : Z) (s : string) (seen : bool) (acc : Z) : option Z :=
  match s with
  | String a s' =>
      match digit_value a with
      | Some d => if d <? R then digits R s' true (acc * R + d)
                  else if seen then Some acc else None
      | None => if seen then Some acc else None
      end
  | EmptyString => if seen then Some acc else None
  end.

(** [parseInt (s)] with no radix argument; [None] is [NaN].  The
    integer returned is the mathematical value of the digits read (the
    algorithm's [mathInt] with its sign); the Number that JavaScript
    makes of it is that integer exactly when it is a [safe_integer], and
    the nearest double beyond.  Rounding is monotone and keeps 0 and
    65535, so the port check of [listen] below decides alike on
    either. *)
Definition parseInt_string (s : string) : option Z :=
  let s1 := trim_start s in
  let '(sign, s2) :=
    match s1 with
    | String "-" r => (-1, r)
    | String "+" r => (1, r)
    | _ => (1, s1)
    end in
  let '(R, s3) :=
    match s2 with
    | String "0" (String "x" r) => (16, r)
    | String "0" (String "X" r) => (16, r)
    | _ => (10, s2)
    end in
  match digits R s3 false 0 with
  | Some n => Some (sign * n)
  | None => None
  end.

(** [parseInt (undefined)] reads the text "undefined". *)
Definition parseInt (x : option string) : option Z :=
  match x with
  | Some s => parseInt_string s
  | None => None
  end.

Inductive log_line :=
| LogStarting (deviceId : option string)
| LogConnection (deviceId : option string)
| LogReceived (deviceId : option string) (message : list Byte.byte)
| LogEchoed (deviceId : option string)
| LogRunning (deviceId : option string) (port : option Z)
| LogTerminating (deviceId : option string).

Inductive effect :=
| server_listen (port : Z)
| server_close
| ws_send (ws : WebSocket) (message : list Byte.byte)
| process_exit (code : Z)
| console (l : log_line).

(** The script's top-level constants. *)
Record Env := {
  deviceId : option string;
  port : option Z
}.

(** Lines 4-6; [argv2] is [process.argv.slice (2)]. *)
Definition parse_args (argv2 : list string) : Env :=
  {| deviceId := at_index argv2 (indexOf "--device-id" argv2 + 1);
     port := parseInt (at_index argv2 (indexOf "--port" argv2 + 1)) |}.

(** Node's port check: [NaN] and anything outside 0..65535 throw. *)
Definition listen (port : option Z) : outcome (list effect) :=
  match port with
  | Some p => if (0 <=? p) && (p <=? 65535) then Ret [server_listen p]
              else Throw RangeError
  | None => Throw RangeError
  end.

(** Lines 4-27: what the script does when it is loaded.  An exception
    that escapes ends the process before any listener is installed. *)
Definition main (argv2 : list string) : Env * list effect * outcome unit :=
  let env := parse_args argv2 in
  match listen (port env) with
  | Ret t => (env, console (LogStarting (deviceId env)) :: t, Ret tt)
  | Throw e => (env, [console (LogStarting (deviceId env))], Throw e)
  end.

(** Lines 25-27, the [listen] callback. *)
Definition on_listening (env : Env) : list effect :=
  [console (LogRunning (deviceId env) (port env))].

(** Lines 13-14. *)
Definition on_connection (env : Env) (ws : WebSocket) : list effect :=
  [console (LogConnection (deviceId env))].

(** Lines 16-22. *)
Definition on_message (env : Env) (ws : WebSocket) (message : list Byte.byte)
    : list effect :=
  [console (LogReceived (deviceId env) message);
   ws_send ws message;
   console (LogEchoed (deviceId env))].


(** The frames a handler sends, with the socket each goes to. *)
Definition sends (t : list effect) : list (WebSocket * list Byte.byte) :=
  omap (fun e => match e with ws_send w m => Some (w, m) | _ => None end) t.

End Worker.

(** ** The system: every handler as an event *)

Inductive event :=
| EvUpgrade (request : Request) (isolatedWss : WebSocketServer) (ws : WebSocket) (t0 t1 : Z)
| EvHistory (c : Conn) (s : settlement)
| EvMessage (c : Conn) (iso : string) (r : save_result) (message : RawData)
| EvClose (c : Conn)
| EvCreateDeviceIsolatedServer (basePort : Z)
| EvCreateForDevice (factory : nat) (deviceId : string) (httpServer : HttpServer)
    (wss : WebSocketServer)
| EvListening (h : DeviceHandle)
| EvDeviceConnection (h : DeviceHandle) (ws : WebSocket) (t1 t2 : Z)
| EvDeviceMessage (ws : WebSocket) (message : list Byte.byte)
| EvDeviceClose (h : DeviceHandle)
| EvHandleClose (h : DeviceHandle)
| EvCreateIsolatedProcess (deviceId : string) (worker : ChildProcess)
| EvWorkerExit (deviceId : string)
| EvDisconnect (h : ProcessHandle)
| EvCleanup (now : Z).

Definition discard {A} (m : M A) : M unit := m ;;; ret tt.

Definition step (e : event) : M unit :=
  match e with
  | EvUpgrade request isolatedWss ws t0 t1 => discard (on_upgrade request isolatedWss ws t0 t1)
  | EvHistory c s => on_history c s
  | EvMessage c iso r message => on_message c iso r message
  | EvClose c => on_close c
  | EvCreateDeviceIsolatedServer basePort => discard (createDeviceIsolatedServer basePort)
  | EvCreateForDevice factory deviceId httpServer wss =>
      discard (createForDevice factory deviceId httpServer wss)
  | EvListening h => on_listening h
  | EvDeviceConnection h ws t1 t2 => on_device_connection h ws t1 t2
  | EvDeviceMessage ws message => on_device_message ws message
  | EvDeviceClose h => on_device_close h
  | EvHandleClose h => handle_close h
  | EvCreateIsolatedProcess deviceId worker => discard (createIsolatedProcess deviceId worker)
  | EvWorkerExit deviceId => on_worker_exit deviceId
  | EvDisconnect h => disconnect h
  | EvCleanup now => cleanupInactiveDevices now
  end.

(** The event loop: handlers run one at a time, to completion.  Node
    ends the process when an exception escapes a handler; [run] goes on
    from the state the handler left, which also covers a process with an
    ['uncaughtException'] listener.  Every state of the real process is
    a state of some [run]. *)
Fixpoint run (es : list event) (g : Globals) : Globals * list effect :=
  match es with
  | [] => (g, [])
  | e :: es' =>
      let '(_, g1, t1) := step e g in
      let '(g2, t2) := run es' g1 in
      (g2, t1 ++ t2)
  end.

Definition reachable (g : Globals) : Prop := exists es, (run es initial).1 = g.


(** ** Observations on traces *)

Definition sends (t : list effect) : list (WebSocket * payload) :=
  omap (fun e => match e with ws_send w d => Some (w, d) | _ => None end) t.

Definition closes (t : list effect) : list (WebSocket * Z * string) :=
  omap (fun e => match e with ws_close w code reason => Some (w, code, reason) | _ => None end) t.

Definition saves (t : list effect) : list (string * option value) :=
  omap (fun e => match e with call_saveChatMessage d x => Some (d, x) | _ => None end) t.

(** ** Vocabulary of the statements *)

(** The session check of line 99, as a predicate on the parsed frame:
    a [sessionId] property that is truthy and a key of the registry. *)
Definition session_valid (g : Globals) (parsed : value) : Prop :=
  exists sid, get_prop parsed "sessionId" = Ret sid /\
              truthy sid = true /\ sessions_has g sid = true.

Definition is_chat (parsed : value) : Prop :=
  get_prop parsed "type" = Ret (Some (JStr "chat")).

Definition is_subscribe (parsed : value) : Prop :=
  get_prop parsed "type" = Ret (Some (JStr "subscribe")).

(** [parsed.content] of a frame that passed the session check. *)
Definition content_of (parsed : value) : option value :=
  match parsed with
  | JObj props => props !! "content"
  | _ => None
  end.

(** What the catch clause adds when the persistence call throws. *)
Definition save_tail (r : save_result) : list effect :=
  match r with
  | SaveThrows e => [console (ErrIsolatedSession e)]
  | _ => []
  end.

(** No session is registered under the empty string. *)
Definition sessions_wf (g : Globals) : Prop :=
  activeIsolatedSessions g !! "" = None.

(** Every way the ['message'] listener of connection [c] can go. *)
Inductive handled (c : Conn) (iso : string) (r : save_result) (g : Globals) : RawData -> list effect -> Prop :=
| H_not_json text :
    handled c iso r g (NotJSON text) [console (ErrIsolatedSession SyntaxError)]
| H_null :
    handled c iso r g (JSONText JNull) [console (ErrIsolatedSession TypeError)]
| H_invalid parsed :
    parsed <> JNull -> ~ session_valid g parsed ->
    handled c iso r g (JSONText parsed) [ws_close (c_ws c) 1008 "Invalid session"]
| H_chat parsed :
    session_valid g parsed -> is_chat parsed ->
    handled c iso r g (JSONText parsed)
      ([ws_send (c_ws c) (JSON_stringify (echo_frame c parsed iso));
        call_saveChatMessage (c_deviceId c) (content_of parsed)] ++ save_tail r)
| H_subscribe parsed channel :
    session_valid g parsed -> is_subscribe parsed ->
    handled c iso r g (JSONText parsed)
      [console (LogSubscribed channel);
       ws_send (c_ws c) (JSON_stringify (subscribed_frame channel))]
| H_subscribe_throws parsed :
    session_valid g parsed -> is_subscribe parsed ->
    handled c iso r g (JSONText parsed) [console (ErrIsolatedSession TypeError)]
| H_other parsed type :
    session_valid g parsed -> ~ is_chat parsed -> ~ is_subscribe parsed ->
    handled c iso r g (JSONText parsed) [console (LogUnknownType type)].


(** The reading of the registry's [register] under which an identifier
    that is already present is refused and the entry kept. *)
Definition register_rejects_duplicates : Prop :=
  forall isolatedWss ip deviceId ws now g,
    is_Some (activeIsolatedSessions g !! (deviceId +:+ "-" +:+ pretty now)) ->
    let res := on_connection isolatedWss ip deviceId ws now g in
    (exists e, result_of res = Throw e) /\
    activeIsolatedSessions (state_of res) = activeIsolatedSessions g.

(** Spawning one target through each strategy, from a fresh factory. *)
Definition spawn_both (basePort : Z) (d1 : string) (httpServer : HttpServer)
    (wss : WebSocketServer) (d2 : string) (worker : ChildProcess)
    : M (DeviceHandle * ProcessHandle) :=
  factory <- createDeviceIsolatedServer basePort ;;
  h <- createForDevice factory d1 httpServer wss ;;
  p <- createIsolatedProcess d2 worker ;;
  ret (h, p).

(** The reading of port allocation under which the two strategies draw
    from one counter: targets spawned through either get distinct
    ports. *)
Definition ports_never_shared : Prop :=
  forall basePort d1 httpServer wss d2 worker h p,
    result_of (spawn_both basePort d1 httpServer wss d2 worker initial) = Ret (h, p) ->
    h_port h <> ph_port p.

(** [conn.lastActive] is older than the threshold at [now] (line 264). *)
Definition idle (now : Z) (conn : DeviceConnection) : bool :=
  idle_threshold <? now - lastActive conn.

(** The reading of [lastActive] as a record of traffic: a message that
    arrives at [now] on the socket of a tracked device moves the
    device's [lastActive] up to [now]. *)
Definition lastActive_tracks_traffic : Prop :=
  forall g deviceId conn srv socket message now,
    amap_get deviceId (activeConnections g) = Some conn ->
    deviceServers g !! deviceId = Some srv ->
    ds_ws srv = Some socket ->
    lastActive conn < now ->
    exists conn',
      amap_get deviceId
        (activeConnections (state_of (on_device_message socket message g))) = Some conn' /\
      now <= lastActive conn'.

(** The events that write a record for [deviceId] into the tracker. *)
Definition connects (deviceId : string) (e : event) : bool :=
  match e with
  | EvDeviceConnection h _ _ _ => String.eqb (h_deviceId h) deviceId
  | _ => false
  end.

(** What one handler can do to the globals; the only handler that writes
    a tracker record is the ['connection'] listener of a device server. *)
Inductive changes (g : Globals) : event -> Globals -> Prop :=
| ch_none e : changes g e g
| ch_session_insert e k s :
    k <> "" -> changes g e (set_sessions (insert k s) g)
| ch_session_delete e k :
    changes g e (set_sessions (delete k) g)
| ch_factory_new e basePort :
    changes g e
      (set_localPortCounters (insert (fresh (dom (localPortCounters g))) basePort) g)
| ch_factory_bump e factory port :
    localPortCounters g !! factory = Some port ->
    changes g e (set_localPortCounters (insert factory (js_succ port)) g)
| ch_device_connect h socket t1 t2 :
    changes g (EvDeviceConnection h socket t1 t2)
      (set_connections
         (amap_set (h_deviceId h)
            {| dc_deviceId := h_deviceId h; dc_port := h_port h;
               connectedAt := t1; lastActive := t2 |})
         (set_deviceServers
            (insert (h_deviceId h)
               {| httpServer := h_httpServer h; wss := h_wss h; ds_ws := Some socket |}) g))
| ch_connections_shrink e conns :
    (forall k, amap_get k conns = None \/ amap_get k conns = amap_get k (activeConnections g)) ->
    (NoDup (activeConnections g).*1 -> NoDup conns.*1) ->
    changes g e (set_connections (fun _ => conns) g)
| ch_server_delete e k :
    changes g e (set_deviceServers (delete k) g)
| ch_process_spawn e deviceId info :
    changes g e
      (set_processes (insert deviceId info) (set_portCounter (js_succ (portCounter g)) g))
| ch_process_delete e deviceId :
    changes g e (set_processes (delete deviceId) g).

(** ** Sample data *)

Definition sample_request (key : string) : Request :=
  {| remoteAddress := Some "10.0.0.1"; sec_websocket_key := Some key |}.

(** One client connected on socket 1 at time 1000. *)
Definition sample_conn1 : Conn :=
  {| c_ws := 1%nat; c_isolatedWss := 1%nat; c_ip := "10.0.0.1";
     c_deviceId := "key1"; c_sessionId := "key1-1000" |}.

Definition sample_one_client : Globals :=
  state_of (on_upgrade (sample_request "key1") 1%nat 1%nat 1000 1000 initial).

(** A second client connected on socket 2 at time 2000. *)
Definition sample_conn2 : Conn :=
  {| c_ws := 2%nat; c_isolatedWss := 2%nat; c_ip := "10.0.0.1";
     c_deviceId := "key2"; c_sessionId := "key2-2000" |}.

Definition sample_two_clients : Globals :=
  state_of (on_upgrade (sample_request "key2") 2%nat 2%nat 2000 2000 sample_one_client).

Definition sample_chat_props (sid : string) : gmap string value :=
  <["type" := JStr "chat"]> (<["sessionId" := JStr sid]> (<["content" := JStr "hello"]> ∅)).

Definition sample_subscribe (sid : string) : value :=
  JObj (<["type" := JStr "subscribe"]>
       (<["sessionId" := JStr sid]> (<["channel" := JStr "alerts"]> ∅))).

(** Device "a" connected at time 1000 to the server made for it from
    base port 3000. *)
Definition sample_handle : DeviceHandle :=
  {| h_port := 3000; h_httpServer := 1%nat; h_wss := 1%nat; h_deviceId := "a" |}.

Definition sample_device_connected : Globals :=
  (run [EvCreateDeviceIsolatedServer 3000;
        EvCreateForDevice 0%nat "a" 1%nat 1%nat;
        EvDeviceConnection sample_handle 7%nat 1000 1000] initial).1.

Definition sample_record : DeviceConnection :=
  {| dc_deviceId := "a"; dc_port := 3000; connectedAt := 1000; lastActive := 1000 |}.

(** Traffic, another device, a worker and a sweep, none of which
    connects device "a" anew. *)
Definition sample_traffic : list event :=
  [EvDeviceMessage 7%nat []; EvDeviceMessage 7%nat [];
   EvCreateIsolatedProcess "b" 1%nat; EvWorkerExit "b";
   EvCleanup 2000].

(** * The rest of the code *)

(** ** broadcastMessage *)

Inductive readyState := CONNECTING | OPEN | CLOSING | CLOSED.

Definition is_OPEN (s : readyState) : bool :=
  match s with
  | OPEN => true
  | _ => false
  end.

(** Lines 165-171.  [clients] is [wss.clients] in iteration order, each
    socket with its [readyState] at the time of the call. *)
Definition broadcastMessage (clients : list (WebSocket * readyState)) (message : value)
    : M unit :=
  for_of clients
    (fun client =>
       if is_OPEN client.2 then emit (ws_send client.1 (JSON_stringify message))
       else ret tt).

(** ** generateDeviceId *)

(** An element of the array under [Array.prototype.join]: [undefined]
    contributes the empty string. *)
Definition join_part (x : option string) : string :=
  match x with
  | Some s => s
  | None => ""
  end.

(** Lines 252-259.  [user_agent] is [req.headers['user-agent']]; the key
    and the address are read from the request as before. *)
Definition generateDeviceId (user_agent : option string) (req : Request) (now : Z) : string :=
  join_part user_agent +:+ "-" +:+
  join_part (sec_websocket_key req) +:+ "-" +:+
  join_part (remoteAddress req) +:+ "-" +:+
  pretty now.

(** ** Observations used below *)

Definition forks (t : list effect) : list (list string) :=
  omap (fun e => match e with fork _ args => Some args | _ => None end) t.

(** The device ids for which a run spawns a worker, in order. *)
Definition spawned (es : list event) : list string :=
  omap (fun e => match e with EvCreateIsolatedProcess d _ => Some d | _ => None end) es.

Fixpoint has_dash (s : string) : bool :=
  match s with
  | EmptyString => false
  | String a s' => Ascii.eqb a "-" || has_dash s'
  end.

(** A frame of the given type that names session [sid]. *)
Definition frame_of (type sid : string) (rest : gmap string value) : value :=
  JObj (<["type" := JStr type]> (<["sessionId" := JStr sid]> rest)).

(** A registry whose every key is the entry's device id, a dash and the
    decimal time of connection. *)
Definition sessions_keyed (g : Globals) : Prop :=
  forall sid s, activeIsolatedSessions g !! sid = Some s ->
    exists now : Z, sid = deviceId s +:+ "-" +:+ pretty now.

(** ** The chat widget: suggestions *)

Module AIChatbot.

(** The profile types are declared in [@/types], which is not among the
    sources; the fields below are the ones the function reads, with the
    types their uses show: flags as booleans, levels as numbers, lists
    as arrays of strings. *)
Record HealthProfile := {
  hasRespiratoryConditions : bool;
  hasAllergies : bool;
  fitnessLevel : option string
}.

Record EnvironmentalSensitivities := {
  pollutionSensitivity : float;
  uvSensitivity : float;
  heatSensitivity : float
}.

Record LifestyleHabits := {
  transportation : list string
}.

Record Interests := {
  outdoorActivities : list string;
  sustainabilityInterest : float
}.

Record UserProfile := {
  healthProfile : option HealthProfile;
  environmentalSensitivities : option EnvironmentalSensitivities;
  lifestyleHabits : option LifestyleHabits;
  interests : option Interests
}.

(** [if (c) suggestions.push (x)]. *)
Definition push_if (c : bool) (x : string) (suggestions : list string) : list string :=
  if c then suggestions ++ [x] else suggestions.

(** [xs.includes (x)] on an array of strings. *)
Definition includes (x : string) (xs : list string) : bool :=
  existsb (String.eqb x) xs.

(** [x >= 3]. *)
Definition at_least_3 (x : float) : bool := PrimFloat.leb 3%float x.

(** Lines 28-75: the suggestions drawn from the profile. *)
Definition personalized (userProfile : UserProfile) : list string :=
  let suggestions := [] in
  let suggestions :=
    match healthProfile userProfile with
    | Some h =>
        let suggestions :=
          push_if (hasRespiratoryConditions h)
            "How can I protect my respiratory health today?" suggestions in
        let suggestions :=
          push_if (hasAllergies h) "Are there high pollen levels today?" suggestions in
        push_if (match fitnessLevel h with
                 | Some l => String.eqb l "active"
                 | None => false
                 end)
          "What outdoor activities are safe with today's air quality?" suggestions
    | None => suggestions
    end in
  let suggestions :=
    match environmentalSensitivities userProfile with
    | Some e =>
        let suggestions :=
          push_if (at_least_3 (pollutionSensitivity e))
            "When will air quality improve today?" suggestions in
        let suggestions :=
          push_if (at_least_3 (uvSensitivity e)) "What's the UV index today?" suggestions in
        push_if (at_least_3 (heatSensitivity e)) "How can I stay cool today?" suggestions
    | None => suggestions
    end in
  let suggestions :=
    match lifestyleHabits userProfile with
    | Some l =>
        let suggestions :=
          push_if (includes "bicycle" (transportation l))
            "Is today good for cycling?" suggestions in
        push_if (includes "walk" (transportation l))
          "What's the best time for a walk today?" suggestions
    | None => suggestions
    end in
  match interests userProfile with
  | Some i =>
      let suggestions :=
        match outdoorActivities i with
        | activity :: _ => suggestions ++ ["Can I do " +:+ activity +:+ " today?"]
        | [] => suggestions
        end in
      push_if (at_least_3 (sustainabilityInterest i))
        "What sustainable action can I take today?" suggestions
  | None => suggestions
  end.

Definition general : list string :=
  ["How's the weather in Hanoi today?";
   "What should I wear today?";
   "Any environmental alerts today?"].

(** Lines 25-86; [None] is a missing [userProfile]. *)
Definition getPersonalizedSuggestions (userProfile : option UserProfile) : list string :=
  match userProfile with
  | None => []
  | Some p =>
      let suggestions := personalized p in
      let suggestions :=
        if (length suggestions <? 3)%nat then suggestions ++ general else suggestions in
      take 5 suggestions
  end.

End AIChatbot.

(** Device "a" as in [sample_device_connected], after the handle that
    [createForDevice] returned was closed while the socket stayed open. *)
Definition sample_handle_closed : Globals :=
  (run [EvHandleClose sample_handle] sample_device_connected).1.

(** A frame of a type the router does not know, and one that is a list. *)
Definition sample_ping : value := frame_of "ping" "key1-1000" ∅.

Definition sample_list_frame : value := JArr [JStr "key1-1000"].

(** Two workers spawned around a connection and a worker exit. *)
Definition sample_spawns : list event :=
  [EvCreateIsolatedProcess "a" 1%nat;
   EvUpgrade (sample_request "key1") 1%nat 1%nat 1000 1000;
   EvWorkerExit "a";
   EvCreateIsolatedProcess "b" 2%nat].

(** A factory made from base port 3000, before any device server. *)
Definition sample_factory : Globals :=
  state_of (createDeviceIsolatedServer 3000 initial).


(** * Properties *)

Ltac unfold_M :=
  unfold discard, bind, try_catch, lift, get, put, emit, ret, throw,
    state_of, trace_of, result_of in *.

(** ** The event loop *)

Lemma run_cons e es g :
  run (e :: es) g
  = ((run es (step e g).1.2).1, (step e g).2 ++ (run es (step e g).1.2).2).
Proof.
  simpl. destruct (step e g) as [[o g1] t1]. simpl. destruct (run es g1). reflexivity.
Qed.

Lemma run_app es1 es2 g :
  run (es1 ++ es2) g
  = ((run es2 (run es1 g).1).1, (run es1 g).2 ++ (run es2 (run es1 g).1).2).
Proof.
  revert g. induction es1 as [|e es1 IH]; intros g.
  - simpl. destruct (run es2 g). reflexivity.
  - rewrite <- app_comm_cons, !run_cons, IH. simpl. rewrite app_assoc. reflexivity.
Qed.

(** ** Message router *)

Section Router.

Variable c : Conn.
Variable iso : string.

Lemma on_message_not_json r text g :
  on_message c iso r (NotJSON text) g
  = (Ret tt, g, [console (ErrIsolatedSession SyntaxError)]).
Proof. reflexivity. Qed.

Lemma on_message_null r g :
  on_message c iso r (JSONText JNull) g
  = (Ret tt, g, [console (ErrIsolatedSession TypeError)]).
Proof. reflexivity. Qed.

Lemma session_valid_not_null g parsed : session_valid g parsed -> parsed <> JNull.
Proof. intros (sid & H & _) ->. discriminate H. Qed.

Lemma session_valid_dec g parsed : session_valid g parsed \/ ~ session_valid g parsed.
Proof.
  destruct (get_prop parsed "sessionId") as [sid|e] eqn:Hsid.
  - destruct (truthy sid) eqn:Ht, (sessions_has g sid) eqn:Hh;
      [left; exists sid; auto | right ..];
      intros (sid' & H1 & H2 & H3); rewrite Hsid in H1; injection H1 as <-; congruence.
  - right. intros (sid' & H1 & _). rewrite Hsid in H1. discriminate.
Qed.

Lemma on_message_invalid r g parsed :
  parsed <> JNull -> ~ session_valid g parsed ->
  on_message c iso r (JSONText parsed) g
  = (Ret tt, g, [ws_close (c_ws c) 1008 "Invalid session"]).
Proof.
  intros Hnn Hinv.
  assert (exists sid, get_prop parsed "sessionId" = Ret sid) as [sid Hsid]
    by (destruct parsed; simpl; eauto; congruence).
  assert (negb (truthy sid) || negb (sessions_has g sid) = true) as Hc.
  { destruct (truthy sid) eqn:Ht, (sessions_has g sid) eqn:Hh; try reflexivity.
    exfalso. apply Hinv. exists sid. auto. }
  unfold on_message, JSON_parse. unfold_M. rewrite Hsid. simpl. rewrite Hc.
  reflexivity.
Qed.

Lemma on_message_chat r g parsed :
  session_valid g parsed -> is_chat parsed ->
  on_message c iso r (JSONText parsed) g
  = (Ret tt, g,
     [ws_send (c_ws c) (JSON_stringify (echo_frame c parsed iso));
      call_saveChatMessage (c_deviceId c) (content_of parsed)]
     ++ save_tail r).
Proof.
  intros (sid & Hsid & Ht & Hh) Hty. unfold is_chat in Hty.
  unfold on_message, JSON_parse, saveChatMessage, save_tail. unfold_M.
  rewrite Hsid. simpl. rewrite Ht, Hh. simpl. rewrite Hty. simpl.
  destruct parsed; try discriminate Hty; simpl.
  destruct r; reflexivity.
Qed.

Lemma on_message_subscribe r g parsed :
  session_valid g parsed -> is_subscribe parsed ->
  exists channel,
    get_prop parsed "channel" = Ret channel /\
    on_message c iso r (JSONText parsed) g
    = (Ret tt, g,
       if template_throws channel then [console (ErrIsolatedSession TypeError)]
       else [console (LogSubscribed channel);
             ws_send (c_ws c) (JSON_stringify (subscribed_frame channel))]).
Proof.
  intros (sid & Hsid & Ht & Hh) Hty. unfold is_subscribe in Hty.
  destruct parsed; try discriminate Hty. simpl in *.
  eexists; split; [reflexivity|].
  unfold on_message, JSON_parse, handleSubscription. unfold_M.
  simpl. injection Hsid as <-. rewrite Ht, Hh. simpl.
  injection Hty as ->. simpl.
  destruct (template_throws (props !! "channel")); reflexivity.
Qed.

Lemma on_message_other r g parsed :
  session_valid g parsed -> ~ is_chat parsed -> ~ is_subscribe parsed ->
  exists type,
    get_prop parsed "type" = Ret type /\
    on_message c iso r (JSONText parsed) g
    = (Ret tt, g, [console (LogUnknownType type)]).
Proof.
  intros (sid & Hsid & Ht & Hh) Hc Hs. unfold is_chat, is_subscribe in *.
  destruct parsed; try discriminate Hsid;
    try (simpl in Hsid; injection Hsid as <-; discriminate Ht).
  simpl in *. eexists; split; [reflexivity|].
  unfold on_message, JSON_parse. unfold_M.
  simpl. injection Hsid as <-. rewrite Ht, Hh. simpl.
  destruct (props !! "type") as [[]|] eqn:E; simpl; try reflexivity.
  destruct (String.eqb_spec s "chat") as [->|]; [congruence|].
  destruct (String.eqb_spec s "subscribe") as [->|]; [congruence|].
  reflexivity.
Qed.

Lemma is_chat_dec parsed : is_chat parsed \/ ~ is_chat parsed.
Proof.
  unfold is_chat. destruct (get_prop parsed "type") as [[[]|]|]; try (right; congruence).
  destruct (String.eqb_spec s "chat") as [->|]; [left; reflexivity | right; congruence].
Qed.

Lemma is_subscribe_dec parsed : is_subscribe parsed \/ ~ is_subscribe parsed.
Proof.
  unfold is_subscribe. destruct (get_prop parsed "type") as [[[]|]|]; try (right; congruence).
  destruct (String.eqb_spec s "subscribe") as [->|]; [left; reflexivity | right; congruence].
Qed.

Lemma on_message_handled r message g :
  exists t, on_message c iso r message g = (Ret tt, g, t) /\ handled c iso r g message t.
Proof.
  destruct message as [text|parsed].
  { eexists; split; [apply on_message_not_json | constructor]. }
  destruct (session_valid_dec g parsed) as [Hv|Hv].
  - destruct (is_chat_dec parsed) as [Hc|Hc].
    { eexists; split; [apply on_message_chat; assumption | constructor; assumption]. }
    destruct (is_subscribe_dec parsed) as [Hs|Hs].
    { destruct (on_message_subscribe r g parsed Hv Hs) as (ch & _ & ->).
      destruct (template_throws ch);
        (eexists; split; [reflexivity | constructor; assumption]). }
    destruct (on_message_other r g parsed Hv Hc Hs) as (ty & _ & ->).
    eexists; split; [reflexivity | constructor; assumption].
  - destruct parsed;
      try (eexists; split; [apply on_message_invalid; [discriminate | assumption]
                           | constructor; [discriminate | assumption]]).
    eexists; split; [apply on_message_null | constructor].
Qed.

Lemma echo_frame_sessionId parsed :
  get_prop (echo_frame c parsed iso) "sessionId" = Ret (Some (JStr (c_sessionId c))).
Proof.
  unfold echo_frame. simpl. rewrite lookup_insert_ne by discriminate.
  rewrite lookup_insert_eq. reflexivity.
Qed.

Lemma echo_frame_timestamp parsed :
  get_prop (echo_frame c parsed iso) "timestamp" = Ret (Some (JStr iso)).
Proof. unfold echo_frame. simpl. rewrite lookup_insert_eq. reflexivity. Qed.

Lemma echo_frame_other props k :
  k <> "sessionId" -> k <> "timestamp" ->
  get_prop (echo_frame c (JObj props) iso) k = Ret (props !! k).
Proof.
  intros H1 H2. unfold echo_frame. simpl.
  rewrite !lookup_insert_ne by congruence. reflexivity.
Qed.

Lemma session_valid_obj g parsed :
  session_valid g parsed -> exists props, parsed = JObj props.
Proof.
  intros (sid & Hsid & Ht & _).
  destruct parsed; try discriminate Hsid;
    try (simpl in Hsid; injection Hsid as <-; discriminate Ht).
  eauto.
Qed.

Lemma sends_save_tail r : sends (save_tail r) = [].
Proof. destruct r; reflexivity. Qed.

Lemma closes_save_tail r : closes (save_tail r) = [].
Proof. destruct r; reflexivity. Qed.

Lemma saves_save_tail r : saves (save_tail r) = [].
Proof. destruct r; reflexivity. Qed.

(** In a state of the running server, a frame whose [sessionId] is a key
    of the registry passes the check of line 99. *)
Lemma registered_session_valid g parsed sid :
  sessions_wf g ->
  get_prop parsed "sessionId" = Ret (Some (JStr sid)) ->
  is_Some (activeIsolatedSessions g !! sid) ->
  session_valid g parsed.
Proof.
  intros Hwf Hsid Hreg. exists (Some (JStr sid)). split; [exact Hsid|]. split.
  - simpl. destruct (String.eqb_spec sid "") as [->|]; [|reflexivity].
    unfold sessions_wf in Hwf. rewrite Hwf in Hreg. destruct Hreg as [? Hreg]. discriminate Hreg.
  - simpl. apply bool_decide_eq_true. exact Hreg.
Qed.

(** C1: a [chat] frame that carries a registered session id is answered
    by exactly one frame, sent on the socket it arrived on and on no
    other; the echo is the frame with [sessionId] set to the connection's
    own session id and [timestamp] to the server time; [saveChatMessage]
    is called once with the connection's device id and the frame's
    [content]; whatever the persistence call does, the echo is the
    same. *)
Theorem chat_echo_origin_only r g parsed sid :
  sessions_wf g ->
  get_prop parsed "sessionId" = Ret (Some (JStr sid)) ->
  is_Some (activeIsolatedSessions g !! sid) ->
  is_chat parsed ->
  let t := trace_of (on_message c iso r (JSONText parsed) g) in
  let echo := echo_frame c parsed iso in
  sends t = [(c_ws c, JSON_stringify echo)] /\
  (forall w d, (w, d) ∈ sends t -> w = c_ws c) /\
  get_prop echo "sessionId" = Ret (Some (JStr (c_sessionId c))) /\
  get_prop echo "timestamp" = Ret (Some (JStr iso)) /\
  (forall k, k <> "sessionId" -> k <> "timestamp" -> get_prop echo k = get_prop parsed k) /\
  saves t = [(c_deviceId c, content_of parsed)] /\
  closes t = [] /\
  state_of (on_message c iso r (JSONText parsed) g) = g /\
  (forall r', sends (trace_of (on_message c iso r' (JSONText parsed) g)) = sends t).
Proof.
  intros Hwf Hsid Hreg Hc t echo.
  pose proof (registered_session_valid g parsed sid Hwf Hsid Hreg) as Hv.
  assert (Hs : forall r', sends (trace_of (on_message c iso r' (JSONText parsed) g))
                          = [(c_ws c, JSON_stringify echo)]).
  { intros r'. rewrite on_message_chat by assumption. unfold trace_of. simpl.
    rewrite sends_save_tail. reflexivity. }
  subst t. rewrite Hs. repeat split.
  - intros w d Hin. apply list_elem_of_singleton in Hin. congruence.
  - apply echo_frame_sessionId.
  - apply echo_frame_timestamp.
  - intros k H1 H2. destruct (session_valid_obj g parsed Hv) as [props ->].
    subst echo. rewrite echo_frame_other by assumption. reflexivity.
  - rewrite on_message_chat by assumption. unfold trace_of. simpl.
    rewrite saves_save_tail. reflexivity.
  - rewrite on_message_chat by assumption. unfold trace_of. simpl.
    apply closes_save_tail.
  - rewrite on_message_chat by assumption. reflexivity.
  - intros r'. apply Hs.
Qed.

(** C3, at the frame [null]: it parses, it has no [sessionId], and reading
    the property throws; the catch clause logs, the socket is not
    closed. *)
Theorem null_frame_not_closed r g :
  ~ session_valid g JNull /\
  on_message c iso r (JSONText JNull) g
  = (Ret tt, g, [console (ErrIsolatedSession TypeError)]) /\
  closes (trace_of (on_message c iso r (JSONText JNull) g)) = [].
Proof.
  split; [|split; reflexivity].
  intros (sid & H & _). discriminate H.
Qed.

(** X3: apart from [null], a parsed frame without a registered session
    id closes the socket with code 1008 and nothing else happens. *)
Lemma invalid_session_closes r g parsed :
  parsed <> JNull -> ~ session_valid g parsed ->
  let t := trace_of (on_message c iso r (JSONText parsed) g) in
  closes t = [(c_ws c, 1008, "Invalid session")] /\ sends t = [] /\ saves t = [].
Proof.
  intros Hnn Hv. simpl. rewrite on_message_invalid by assumption.
  repeat split.
Qed.

(** X4: the session check is the only path that closes the socket:
    whenever the listener closes a socket, it is its own socket, the
    code is 1008, and the frame had parsed but failed the check. *)
Lemma close_only_on_invalid_session r message g w code reason :
  (w, code, reason) ∈ closes (trace_of (on_message c iso r message g)) ->
  w = c_ws c /\ code = 1008 /\
  exists parsed, message = JSONText parsed /\ ~ session_valid g parsed.
Proof.
  destruct (on_message_handled r message g) as (t & -> & H). unfold trace_of. simpl.
  destruct H; simpl; try (intros Hin; inversion Hin; fail).
  - intros Hin. apply list_elem_of_singleton in Hin. injection Hin as -> -> ->. eauto.
  - rewrite closes_save_tail. intros Hin; inversion Hin.
Qed.

(** X5: no frame reaches the chat or subscribe handler without a
    registered session id: whenever the listener sends or persists
    anything, the frame had parsed and passed the session check. *)
Lemma dispatch_needs_valid_session r message g :
  sends (trace_of (on_message c iso r message g)) <> [] \/
  saves (trace_of (on_message c iso r message g)) <> [] ->
  exists parsed, message = JSONText parsed /\ session_valid g parsed.
Proof.
  destruct (on_message_handled r message g) as (t & -> & H). unfold trace_of. simpl.
  destruct H; simpl; try (intros [?|?]; congruence); eauto.
Qed.

(** C9: a frame that is not JSON is logged and dropped: nothing is sent,
    the socket is not closed, the globals (the registry with them) are
    untouched, and the frames that follow are handled as if it had not
    arrived. *)
Theorem malformed_frame_dropped r text g rest :
  let res := on_message c iso r (NotJSON text) g in
  result_of res = Ret tt /\
  state_of res = g /\
  trace_of res = [console (ErrIsolatedSession SyntaxError)] /\
  sends (trace_of res) = [] /\
  closes (trace_of res) = [] /\
  run (EvMessage c iso r (NotJSON text) :: rest) g
  = ((run rest g).1, console (ErrIsolatedSession SyntaxError) :: (run rest g).2).
Proof.
  repeat split. simpl. destruct (run rest g). reflexivity.
Qed.

(** C10: the session check asks only whether the frame's [sessionId] is
    some key of the registry.  A chat frame that names the session of
    another live connection is not closed; it is dispatched like any
    chat frame: echoed on the socket it arrived on, with all its fields,
    stamped with the server time and with that socket's own session id
    in place of the one it named, and persisted under that socket's
    device id; nothing is sent to the connection it names. *)
Theorem foreign_session_id_accepted r g props sid' other :
  props !! "sessionId" = Some (JStr sid') ->
  props !! "type" = Some (JStr "chat") ->
  sessions_wf g ->
  activeIsolatedSessions g !! sid' = Some other ->
  sid' <> c_sessionId c ->
  ws other <> c_ws c ->
  let t := trace_of (on_message c iso r (JSONText (JObj props)) g) in
  let echo := echo_frame c (JObj props) iso in
  closes t = [] /\
  sends t = [(c_ws c, JSON_stringify echo)] /\
  get_prop echo "sessionId" = Ret (Some (JStr (c_sessionId c))) /\
  get_prop echo "sessionId" <> Ret (Some (JStr sid')) /\
  (forall d, (ws other, d) ∉ sends t) /\
  get_prop echo "timestamp" = Ret (Some (JStr iso)) /\
  (forall k, k <> "sessionId" -> k <> "timestamp" -> get_prop echo k = Ret (props !! k)) /\
  saves t = [(c_deviceId c, props !! "content")] /\
  t = [ws_send (c_ws c) (JSON_stringify echo);
       call_saveChatMessage (c_deviceId c) (props !! "content")] ++ save_tail r /\
  state_of (on_message c iso r (JSONText (JObj props)) g) = g.
Proof.
  intros Hsid Hty Hwf Hreg Hne Hws t echo.
  assert (Hv : session_valid g (JObj props)).
  { apply (registered_session_valid g (JObj props) sid' Hwf).
    - simpl. rewrite Hsid. reflexivity.
    - rewrite Hreg. eauto. }
  assert (Hc : is_chat (JObj props)) by (unfold is_chat; simpl; rewrite Hty; reflexivity).
  assert (Ht : t = [ws_send (c_ws c) (JSON_stringify echo);
                    call_saveChatMessage (c_deviceId c) (props !! "content")]
                   ++ save_tail r).
  { subst t. rewrite on_message_chat by assumption. reflexivity. }
  assert (Hs : sends t = [(c_ws c, JSON_stringify echo)]).
  { rewrite Ht. simpl. rewrite sends_save_tail. reflexivity. }
  split; [|split; [exact Hs|split; [|split; [|split; [|split; [|split; [|split; [|split]]]]]]]].
  - rewrite Ht. simpl. apply closes_save_tail.
  - apply echo_frame_sessionId.
  - subst echo. rewrite echo_frame_sessionId. congruence.
  - intros d Hin. rewrite Hs in Hin. apply list_elem_of_singleton in Hin. congruence.
  - apply echo_frame_timestamp.
  - intros k H1 H2. apply echo_frame_other; assumption.
  - rewrite Ht. simpl. rewrite saves_save_tail. reflexivity.
  - exact Ht.
  - rewrite on_message_chat by assumption. reflexivity.
Qed.

End Router.

(** ** Upgrade broker and session registry *)

Lemma on_connection_eq isolatedWss ip deviceId ws now g :
  let c := {| c_ws := ws; c_isolatedWss := isolatedWss; c_ip := ip;
              c_deviceId := deviceId;
              c_sessionId := deviceId +:+ "-" +:+ pretty now |} in
  on_connection isolatedWss ip deviceId ws now g
  = (Ret c,
     set_sessions (insert (c_sessionId c) (session_of c)) g,
     [console LogClientConnected;
      ws_send ws (JSON_stringify (session_init_frame c));
      ws_send ws (JSON_stringify (welcome_frame c));
      call_getChatHistory deviceId]).
Proof. reflexivity. Qed.

Lemma on_history_eq c s g :
  on_history c s g
  = (match s with Rejected => Throw UnhandledRejection | _ => Ret tt end, g,
     match s with
     | Fulfilled history => [ws_send (c_ws c) (JSON_stringify (history_frame history))]
     | _ => []
     end).
Proof. destruct s; reflexivity. Qed.

Lemma session_id_nonempty deviceId (now : Z) : deviceId +:+ "-" +:+ pretty now <> "".
Proof. destruct deviceId; discriminate. Qed.

Lemma step_upgrade_eq request isolatedWss socket t0 t1 g :
  step (EvUpgrade request isolatedWss socket t0 t1) g
  = (Ret tt,
     state_of (on_upgrade request isolatedWss socket t0 t1 g),
     trace_of (on_upgrade request isolatedWss socket t0 t1 g)).
Proof. reflexivity. Qed.

(** The history frame, if any, comes after whatever else the server did
    in the meantime. *)
Lemma run_upgrade_history request isolatedWss socket t0 t1 s mid g c :
  result_of (on_upgrade request isolatedWss socket t0 t1 g) = Ret c ->
  (run (EvUpgrade request isolatedWss socket t0 t1 :: mid ++ [EvHistory c s]) g).2
  = trace_of (on_upgrade request isolatedWss socket t0 t1 g)
    ++ (run mid (state_of (on_upgrade request isolatedWss socket t0 t1 g))).2
    ++ match s with
       | Fulfilled history => [ws_send socket (JSON_stringify (history_frame history))]
       | Rejected | Pending => []
       end.
Proof.
  intros Hc. rewrite run_cons, step_upgrade_eq. cbn [fst snd]. rewrite run_app.
  cbn [fst snd]. f_equal. f_equal. cbn [run step]. rewrite on_history_eq. cbn [fst snd].
  rewrite app_nil_r. unfold on_upgrade in Hc. rewrite on_connection_eq in Hc.
  injection Hc as <-. reflexivity.
Qed.

(** C2, where it fails: the history fetch is rejected.  Up to there the
    upgrade does what is claimed: one session registered under the new
    id and holding the new socket, then [session_init] (with
    [sessionId], [deviceId], [ipAddress]) and the welcome [connection]
    frame on the new socket, then the call of [getChatHistory] for the
    device, not waited for.  A fulfilled fetch sends the [history] frame
    with the fetched messages, a pending one sends nothing.  A rejected
    fetch has no handler: it sends nothing and escapes as an unhandled
    rejection, which ends the process and with it this socket and every
    other. *)
Theorem history_rejection_unhandled request isolatedWss ws t0 t1 g :
  let res := on_upgrade request isolatedWss ws t0 t1 g in
  exists c,
    result_of res = Ret c /\
    c_ws c = ws /\
    c_ip c = derive_ip request /\
    c_deviceId c = derive_deviceId request t0 /\
    c_sessionId c = c_deviceId c +:+ "-" +:+ pretty t1 /\
    activeIsolatedSessions (state_of res)
      = <[c_sessionId c := session_of c]> (activeIsolatedSessions g) /\
    size (activeIsolatedSessions (state_of res))
      = S (size (delete (c_sessionId c) (activeIsolatedSessions g))) /\
    trace_of res
      = [console LogClientConnected;
         ws_send ws (JSON_stringify (session_init_frame c));
         ws_send ws (JSON_stringify (welcome_frame c));
         call_getChatHistory (c_deviceId c)] /\
    get_prop (session_init_frame c) "type" = Ret (Some (JStr "session_init")) /\
    get_prop (session_init_frame c) "sessionId" = Ret (Some (JStr (c_sessionId c))) /\
    get_prop (session_init_frame c) "deviceId" = Ret (Some (JStr (c_deviceId c))) /\
    get_prop (session_init_frame c) "ipAddress" = Ret (Some (JStr (c_ip c))) /\
    get_prop (welcome_frame c) "type" = Ret (Some (JStr "connection")) /\
    get_prop (welcome_frame c) "deviceId" = Ret (Some (JStr (c_deviceId c))) /\
    (forall history g',
       on_history c (Fulfilled history) g'
       = (Ret tt, g', [ws_send ws (JSON_stringify (history_frame history))]) /\
       get_prop (history_frame history) "type" = Ret (Some (JStr "history")) /\
       get_prop (history_frame history) "messages" = Ret (Some history)) /\
    (forall g', on_history c Pending g' = (Ret tt, g', [])) /\
    (forall g', on_history c Rejected g' = (Throw UnhandledRejection, g', [])).
Proof.
  intros res. subst res. unfold on_upgrade. rewrite on_connection_eq.
  eexists. unfold result_of, state_of, trace_of. cbn [fst snd].
  split; [reflexivity|]. repeat (split; [reflexivity|]).
  split.
  { simpl. rewrite <- insert_delete_eq. apply map_size_insert_None. apply lookup_delete_eq. }
  repeat (split; [reflexivity|]).
  split; [|split; reflexivity].
  intros history g'. repeat split.
Qed.

(** C7, refuted: a second connection that arrives with the same handshake
    key in the same millisecond gets the same session id; the insert
    goes through and the entry now holds the second socket. *)
Lemma duplicate_session_overwrites : ~ register_rejects_duplicates.
Proof.
  intros H.
  specialize (H 2%nat "10.0.0.1" "key" 2%nat 1000
                (state_of (on_connection 1%nat "10.0.0.1" "key" 1%nat 1000 initial))).
  destruct H as [[e He] _].
  - rewrite on_connection_eq. unfold state_of. simpl. rewrite lookup_insert_eq. eauto.
  - rewrite on_connection_eq in He. discriminate He.
Qed.

(** C7 as the code has it: registering is an unconditional [Map.set].
    It never fails, and when the identifier is already present the entry
    is replaced by the new session, socket handle included. *)
Theorem register_replaces_existing isolatedWss ip deviceId socket now g old :
  activeIsolatedSessions g !! (deviceId +:+ "-" +:+ pretty now) = Some old ->
  let res := on_connection isolatedWss ip deviceId socket now g in
  exists c,
    result_of res = Ret c /\
    c_sessionId c = deviceId +:+ "-" +:+ pretty now /\
    activeIsolatedSessions (state_of res) !! c_sessionId c = Some (session_of c) /\
    ws (session_of c) = socket /\
    (forall k, k <> c_sessionId c ->
       activeIsolatedSessions (state_of res) !! k = activeIsolatedSessions g !! k) /\
    size (activeIsolatedSessions (state_of res)) = size (activeIsolatedSessions g).
Proof.
  intros Hold res. subst res. rewrite on_connection_eq.
  eexists. unfold result_of, state_of. simpl.
  split; [reflexivity|]. split; [reflexivity|].
  split; [apply lookup_insert_eq|]. split; [reflexivity|]. split.
  - intros k Hk. apply lookup_insert_ne. intros E. apply Hk. symmetry. exact E.
  - apply map_size_insert_Some. eauto.
Qed.

(** ** Insertion-ordered maps *)

Section Amap.

Context {V : Type}.
Implicit Types (m : list (string * V)) (k : string) (v : V).

Lemma amap_get_set_eq k v m : amap_get k (amap_set k v m) = Some v.
Proof.
  induction m as [|[k' v'] m IH]; simpl.
  - rewrite String.eqb_refl. reflexivity.
  - destruct (String.eqb_spec k' k) as [->|Hne]; simpl.
    + rewrite String.eqb_refl. reflexivity.
    + destruct (String.eqb_spec k' k); [contradiction | exact IH].
Qed.

Lemma amap_get_set_ne k k' v m : k <> k' -> amap_get k' (amap_set k v m) = amap_get k' m.
Proof.
  intros Hne. induction m as [|[k0 v0] m IH]; simpl.
  - destruct (String.eqb_spec k k'); [contradiction | reflexivity].
  - destruct (String.eqb_spec k0 k) as [->|H0]; simpl.
    + destruct (String.eqb_spec k k'); [contradiction | reflexivity].
    + destruct (String.eqb_spec k0 k'); [reflexivity | exact IH].
Qed.

Lemma amap_get_delete_eq k m : amap_get k (amap_delete k m) = None.
Proof.
  induction m as [|[k' v'] m IH]; simpl; [reflexivity|].
  destruct (String.eqb_spec k' k) as [->|Hne]; simpl; [exact IH|].
  destruct (String.eqb_spec k' k); [contradiction | exact IH].
Qed.

Lemma amap_get_delete_ne k k' m : k <> k' -> amap_get k' (amap_delete k m) = amap_get k' m.
Proof.
  intros Hne. induction m as [|[k0 v0] m IH]; simpl; [reflexivity|].
  destruct (String.eqb_spec k0 k) as [->|H0]; simpl.
  - destruct (String.eqb_spec k k'); [contradiction | exact IH].
  - destruct (String.eqb_spec k0 k'); [reflexivity | exact IH].
Qed.

Lemma amap_get_delete k k' m :
  amap_get k' (amap_delete k m) = None \/
  amap_get k' (amap_delete k m) = amap_get k' m.
Proof.
  destruct (String.eqb_spec k k') as [->|Hne].
  - left. apply amap_get_delete_eq.
  - right. apply amap_get_delete_ne. assumption.
Qed.

Lemma amap_delete_keys k k' m : k' ∈ (amap_delete k m).*1 -> k' ∈ m.*1.
Proof.
  induction m as [|[k0 v0] m IH]; simpl; [auto|].
  destruct (negb (String.eqb k0 k)); simpl; intros Hin.
  - apply elem_of_cons in Hin as [->|Hin]; [left | right; auto].
  - right. auto.
Qed.

Lemma amap_delete_NoDup k m : NoDup m.*1 -> NoDup (amap_delete k m).*1.
Proof.
  induction m as [|[k0 v0] m IH]; simpl; intros Hnd; [constructor|].
  apply NoDup_cons in Hnd as [Hnotin Hnd].
  destruct (negb (String.eqb k0 k)); simpl; [|auto].
  apply NoDup_cons. split; [|auto]. intros Hin. apply Hnotin.
  eapply amap_delete_keys, Hin.
Qed.

Lemma amap_set_keys k v k' m : k' ∈ (amap_set k v m).*1 -> k' = k \/ k' ∈ m.*1.
Proof.
  induction m as [|[k0 v0] m IH]; simpl; intros Hin.
  - apply list_elem_of_singleton in Hin. auto.
  - destruct (String.eqb_spec k0 k) as [->|Hne]; simpl in Hin.
    + right. exact Hin.
    + apply elem_of_cons in Hin as [->|Hin]; [right; left|].
      destruct (IH Hin); [auto | right; right; assumption].
Qed.

Lemma amap_set_NoDup k v m : NoDup m.*1 -> NoDup (amap_set k v m).*1.
Proof.
  induction m as [|[k0 v0] m IH]; simpl; intros Hnd.
  - apply NoDup_singleton.
  - apply NoDup_cons in Hnd as [Hnotin Hnd].
    destruct (String.eqb_spec k0 k) as [->|Hne]; simpl.
    + apply NoDup_cons. auto.
    + apply NoDup_cons. split; [|auto]. intros Hin.
      destruct (amap_set_keys _ _ _ _ Hin); [congruence | contradiction].
Qed.

End Amap.

(** ** Isolation strategies and the reaper: handler equations *)

Lemma createDeviceIsolatedServer_eq basePort g :
  createDeviceIsolatedServer basePort g
  = (Ret (fresh (dom (localPortCounters g))),
     set_localPortCounters (insert (fresh (dom (localPortCounters g))) basePort) g,
     []).
Proof. reflexivity. Qed.

Lemma createForDevice_eq factory deviceId httpServer wss g port :
  localPortCounters g !! factory = Some port ->
  createForDevice factory deviceId httpServer wss g
  = (if (0 <=? port) && (port <=? 65535)
     then Ret {| h_port := port; h_httpServer := httpServer; h_wss := wss;
                 h_deviceId := deviceId |}
     else Throw RangeError,
     set_localPortCounters (insert factory (js_succ port)) g,
     if (0 <=? port) && (port <=? 65535) then [http_listen httpServer port] else []).
Proof.
  intros H. unfold createForDevice, listen. unfold_M. rewrite H.
  destruct ((0 <=? port) && (port <=? 65535)); reflexivity.
Qed.

Lemma createForDevice_dangling factory deviceId httpServer wss g :
  localPortCounters g !! factory = None ->
  createForDevice factory deviceId httpServer wss g = (Throw TypeError, g, []).
Proof. intros H. unfold createForDevice. unfold_M. rewrite H. reflexivity. Qed.

Lemma createIsolatedProcess_eq deviceId worker g :
  createIsolatedProcess deviceId worker g
  = (Ret {| ph_port := portCounter g; ph_worker := worker |},
     set_processes
       (insert deviceId {| process := worker; ip_port := portCounter g;
                           ip_deviceId := deviceId |})
       (set_portCounter (js_succ (portCounter g)) g),
     [fork "worker.js" (worker_args deviceId (portCounter g))]).
Proof. reflexivity. Qed.

Lemma on_device_connection_eq h socket t1 t2 g :
  on_device_connection h socket t1 t2 g
  = (Ret tt,
     set_connections
       (amap_set (h_deviceId h)
          {| dc_deviceId := h_deviceId h; dc_port := h_port h;
             connectedAt := t1; lastActive := t2 |})
       (set_deviceServers
          (insert (h_deviceId h)
             {| httpServer := h_httpServer h; wss := h_wss h; ds_ws := Some socket |}) g),
     []).
Proof. reflexivity. Qed.

Lemma reap_eq now deviceId conn g :
  reap now (deviceId, conn) g
  = if idle now conn then
      match deviceServers g !! deviceId with
      | Some _ => (Throw TypeError, g, [])
      | None => (Ret tt, set_connections (amap_delete deviceId) g, [])
      end
    else (Ret tt, g, []).
Proof.
  unfold reap, idle, optional_close. unfold_M.
  destruct (idle_threshold <? now - lastActive conn); [|reflexivity].
  destruct (deviceServers g !! deviceId); reflexivity.
Qed.

(** The sweep touches nothing but [activeConnections], where it only
    deletes, and performs no call. *)
Lemma sweep_frame now entries g :
  exists o conns,
    for_of entries (reap now) g = (o, set_connections (fun _ => conns) g, []) /\
    (forall k, amap_get k conns = None \/ amap_get k conns = amap_get k (activeConnections g)) /\
    (NoDup (activeConnections g).*1 -> NoDup conns.*1).
Proof.
  revert g. induction entries as [|[d conn] entries IH]; intros g.
  - exists (Ret tt), (activeConnections g). split; [destruct g; reflexivity | auto].
  - cbn [for_of]. unfold bind. rewrite reap_eq. destruct (idle now conn).
    + destruct (deviceServers g !! d) eqn:Hd.
      * exists (Throw TypeError), (activeConnections g).
        split; [destruct g; reflexivity | auto].
      * destruct (IH (set_connections (amap_delete d) g)) as (o & conns & -> & Hc & Hnd).
        exists o, conns. split; [reflexivity|]. split.
        -- intros k. destruct (Hc k) as [H|H]; [auto|]. simpl in H. rewrite H.
           apply amap_get_delete.
        -- intros H. apply Hnd. simpl. apply amap_delete_NoDup, H.
    + destruct (IH g) as (o & conns & -> & Hc). exists o, conns. split; [reflexivity | exact Hc].
Qed.

Lemma cleanupInactiveDevices_frame now g :
  exists o conns,
    cleanupInactiveDevices now g = (o, set_connections (fun _ => conns) g, []) /\
    (forall k, amap_get k conns = None \/ amap_get k conns = amap_get k (activeConnections g)) /\
    (NoDup (activeConnections g).*1 -> NoDup conns.*1).
Proof.
  unfold cleanupInactiveDevices, bind, get.
  destruct (sweep_frame now (activeConnections g) g) as (o & conns & -> & Hc).
  exists o, conns. split; [reflexivity | exact Hc].
Qed.

(** ** Invariants of the event loop *)

Lemma step_changes e g : changes g e (step e g).1.2.
Proof.
  destruct e; cbn [step]; unfold discard, bind.
  - unfold on_upgrade. rewrite on_connection_eq. simpl.
    apply ch_session_insert, session_id_nonempty.
  - rewrite on_history_eq. constructor.
  - destruct (on_message_handled c iso r message g) as (t & -> & _). constructor.
  - simpl. apply ch_session_delete.
  - rewrite createDeviceIsolatedServer_eq. simpl. apply ch_factory_new.
  - destruct (localPortCounters g !! factory) as [port|] eqn:Hf.
    + rewrite (createForDevice_eq _ _ _ _ _ _ Hf).
      destruct ((0 <=? port) && (port <=? 65535)); simpl; apply ch_factory_bump, Hf.
    + rewrite createForDevice_dangling by assumption. constructor.
  - simpl. constructor.
  - rewrite on_device_connection_eq. apply ch_device_connect.
  - simpl. constructor.
  - simpl. apply ch_connections_shrink;
      [intros k; apply amap_get_delete | apply amap_delete_NoDup].
  - simpl. apply ch_server_delete.
  - rewrite createIsolatedProcess_eq. simpl. apply ch_process_spawn.
  - simpl. apply ch_process_delete.
  - simpl. constructor.
  - destruct (cleanupInactiveDevices_frame now g) as (o & conns & -> & Hc & Hnd).
    apply ch_connections_shrink; assumption.
Qed.

(** An invariant of every handler is an invariant of every run. *)
Lemma run_invariant (P : Globals -> Prop) :
  (forall e g, P g -> P (step e g).1.2) ->
  forall es g, P g -> P (run es g).1.
Proof.
  intros Hstep es. induction es as [|e es IH]; intros g Hg; [exact Hg|].
  rewrite run_cons. simpl. apply IH, Hstep, Hg.
Qed.

Lemma changes_sessions_wf g e g' : changes g e g' -> sessions_wf g -> sessions_wf g'.
Proof.
  unfold sessions_wf. intros H Hwf. destruct H; simpl; try assumption.
  - rewrite lookup_insert_ne by assumption. exact Hwf.
  - rewrite lookup_delete. case_decide; [reflexivity | exact Hwf].
Qed.

Lemma reachable_sessions_wf g : reachable g -> sessions_wf g.
Proof.
  intros [es <-]. apply run_invariant.
  - intros e g0 Hwf. eapply changes_sessions_wf; [apply step_changes | exact Hwf].
  - reflexivity.
Qed.

Lemma changes_connections_NoDup g e g' :
  changes g e g' -> NoDup (activeConnections g).*1 -> NoDup (activeConnections g').*1.
Proof.
  intros H Hnd. destruct H; simpl; try assumption.
  - apply amap_set_NoDup, Hnd.
  - auto.
Qed.

(** The tracker of a running server has one entry per device id. *)
Lemma reachable_connections_NoDup g : reachable g -> NoDup (activeConnections g).*1.
Proof.
  intros [es <-]. apply run_invariant.
  - intros e g0 Hnd. eapply changes_connections_NoDup; [apply step_changes | exact Hnd].
  - constructor.
Qed.

Lemma js_succ_le x : x <= js_succ x.
Proof.
  unfold js_succ. destruct (x <? 2 ^ 53); [lia|].
  destruct ((x <? 2 ^ 54) && Z.odd (x / 2)); lia.
Qed.

Lemma js_succ_lt x : x < 2 ^ 53 -> x < js_succ x.
Proof. unfold js_succ. intros H. destruct (Z.ltb_spec x (2 ^ 53)); lia. Qed.

Lemma changes_portCounter g e g' : changes g e g' -> portCounter g <= portCounter g'.
Proof. intros H. destruct H; simpl; try lia. apply js_succ_le. Qed.

Lemma run_portCounter es g : portCounter g <= portCounter (run es g).1.
Proof.
  revert g. induction es as [|e es IH]; intros g; [simpl; lia|].
  rewrite run_cons. simpl.
  pose proof (changes_portCounter _ _ _ (step_changes e g)).
  specialize (IH (step e g).1.2). lia.
Qed.

Lemma changes_localPortCounters g e g' factory port :
  changes g e g' -> localPortCounters g !! factory = Some port ->
  exists port', localPortCounters g' !! factory = Some port' /\ port <= port'.
Proof.
  intros H Hf. destruct H; simpl; try (exists port; split; [assumption | lia]).
  - destruct (decide (fresh (dom (localPortCounters g)) = factory)) as [E|E].
    + exfalso. apply (is_fresh (dom (localPortCounters g))). rewrite E.
      apply elem_of_dom. eauto.
    + rewrite lookup_insert_ne by assumption. exists port. split; [assumption | lia].
  - destruct (decide (factory0 = factory)) as [->|E].
    + rewrite lookup_insert_eq. rewrite Hf in H. injection H as <-.
      eexists. split; [reflexivity | apply js_succ_le].
    + rewrite lookup_insert_ne by assumption. exists port. split; [assumption | lia].
Qed.

Lemma run_localPortCounters es g factory port :
  localPortCounters g !! factory = Some port ->
  exists port', localPortCounters (run es g).1 !! factory = Some port' /\ port <= port'.
Proof.
  revert g port. induction es as [|e es IH]; intros g port Hf.
  - exists port. split; [assumption | lia].
  - rewrite run_cons. simpl.
    destruct (changes_localPortCounters _ _ _ _ _ (step_changes e g) Hf) as (p1 & H1 & Hle).
    destruct (IH _ _ H1) as (p2 & H2 & Hle2). exists p2. split; [assumption | lia].
Qed.

(** ** Port allocation *)

(** C4, refuted: [createDeviceIsolatedServer] declares a counter of its
    own, so a device server made from base port 3000 and the first
    isolated process are both given port 3000. *)
Lemma ports_shared_across_strategies : ~ ports_never_shared.
Proof.
  intros H.
  apply (H 3000 "a" 1%nat 1%nat "b" 1%nat
           {| h_port := 3000; h_httpServer := 1%nat; h_wss := 1%nat; h_deviceId := "a" |}
           {| ph_port := 3000; ph_worker := 1%nat |});
    vm_compute; reflexivity.
Qed.

(** C4 as the code has it: every counter hands out strictly increasing
    ports, never one it has handed out before, whatever happens in
    between (other spawns, worker exits, closes, sweeps).  The
    module-level counter serves [createIsolatedProcess]; the counter of
    one [createDeviceIsolatedServer] call serves its [createForDevice].
    (At 2^53 a counter stops moving; a device server is never given a
    port above 65535.) *)
Theorem ports_increase_per_counter mid g :
  (forall d1 w1 d2 w2,
     portCounter g < 2 ^ 53 ->
     let r1 := createIsolatedProcess d1 w1 g in
     let r2 := createIsolatedProcess d2 w2 (run mid (state_of r1)).1 in
     exists p1 p2,
       result_of r1 = Ret p1 /\ result_of r2 = Ret p2 /\
       ph_port p1 = portCounter g /\ ph_port p1 < ph_port p2) /\
  (forall factory d1 s1 wss1 d2 s2 wss2 h1 h2,
     let r1 := createForDevice factory d1 s1 wss1 g in
     result_of r1 = Ret h1 ->
     result_of (createForDevice factory d2 s2 wss2 (run mid (state_of r1)).1) = Ret h2 ->
     localPortCounters g !! factory = Some (h_port h1) /\ h_port h1 < h_port h2).
Proof.
  split.
  - intros d1 w1 d2 w2 Hlt r1 r2. subst r1 r2.
    rewrite !createIsolatedProcess_eq. unfold result_of, state_of. simpl.
    eexists _, _. split; [reflexivity|]. split; [reflexivity|]. simpl.
    split; [reflexivity|].
    eapply Z.lt_le_trans; [apply js_succ_lt, Hlt|].
    etransitivity; [|apply run_portCounter]. simpl. lia.
  - intros factory d1 s1 wss1 d2 s2 wss2 h1 h2 r1 H1 H2. subst r1.
    destruct (localPortCounters g !! factory) as [port|] eqn:Hf;
      [|rewrite createForDevice_dangling in H1 by assumption; discriminate H1].
    rewrite (createForDevice_eq _ _ _ _ _ _ Hf) in H1, H2.
    unfold result_of, state_of in H1, H2. simpl in H1, H2.
    destruct ((0 <=? port) && (port <=? 65535)) eqn:Hv; [|discriminate H1].
    injection H1 as <-. simpl. split; [reflexivity|].
    apply andb_prop in Hv as [_ Hhi]. apply Z.leb_le in Hhi.
    match type of H2 with context [run mid ?g1] =>
      destruct (run_localPortCounters mid g1 factory (js_succ port)) as (port' & Hf' & Hle);
        [simpl; apply lookup_insert_eq|]
    end.
    rewrite (createForDevice_eq _ _ _ _ _ _ Hf') in H2. simpl in H2.
    destruct ((0 <=? port') && (port' <=? 65535)); [|discriminate H2].
    injection H2 as <-. simpl.
    assert (port < js_succ port) by (apply js_succ_lt; lia). lia.
Qed.

(** ** Device connection records *)

(** C6, refuted: the ['message'] listener of a device server only echoes.
    A device connected at time 1000 that sends a message at time 5000
    still has [lastActive] 1000. *)
Lemma lastActive_not_updated : ~ lastActive_tracks_traffic.
Proof.
  intros H.
  pose (h := {| h_port := 3000; h_httpServer := 1%nat; h_wss := 1%nat; h_deviceId := "a" |}).
  pose (g := state_of (on_device_connection h 7%nat 1000 1000 initial)).
  pose (conn := {| dc_deviceId := "a"; dc_port := 3000;
                   connectedAt := 1000; lastActive := 1000 |}).
  pose (srv := {| httpServer := 1%nat; wss := 1%nat; ds_ws := Some 7%nat |}).
  assert (H1 : amap_get "a" (activeConnections g) = Some conn) by reflexivity.
  assert (H2 : deviceServers g !! "a" = Some srv) by (vm_compute; reflexivity).
  assert (H3 : ds_ws srv = Some 7%nat) by reflexivity.
  assert (H4 : lastActive conn < 5000) by (simpl; lia).
  destruct (H g "a" conn srv 7%nat [] 5000 H1 H2 H3 H4) as (conn' & Hget & Hle).
  vm_compute in Hget. injection Hget as <-. simpl in Hle. lia.
Qed.

Lemma changes_record g e g' d conn :
  changes g e g' -> connects d e = false ->
  (amap_get d (activeConnections g) = None \/ amap_get d (activeConnections g) = Some conn) ->
  amap_get d (activeConnections g') = None \/ amap_get d (activeConnections g') = Some conn.
Proof.
  intros H Hc Hg. destruct H; simpl; try assumption.
  - simpl in Hc. apply String.eqb_neq in Hc. rewrite amap_get_set_ne by assumption. exact Hg.
  - destruct (H d) as [E|E]; [left; exact E | rewrite E; exact Hg].
Qed.

Lemma run_record es g d conn :
  forallb (fun e => negb (connects d e)) es = true ->
  (amap_get d (activeConnections g) = None \/ amap_get d (activeConnections g) = Some conn) ->
  amap_get d (activeConnections (run es g).1) = None \/
  amap_get d (activeConnections (run es g).1) = Some conn.
Proof.
  revert g. induction es as [|e es IH]; intros g Hes Hg; [exact Hg|].
  simpl in Hes. apply andb_prop in Hes as [He Hes]. apply negb_true_iff in He.
  rewrite run_cons. simpl. apply IH; [exact Hes|].
  eapply changes_record; [apply step_changes | exact He | exact Hg].
Qed.

(** C6 as the code has it: no field of a tracked record is written after
    the record is made, [lastActive] included.  A message on the device's
    socket is echoed and changes nothing; through any sequence of events
    in which the device does not connect anew, its record, while it is
    in the tracker, is the one the connection listener stored. *)
Theorem device_record_never_mutated d conn es g conn' :
  amap_get d (activeConnections g) = Some conn ->
  forallb (fun e => negb (connects d e)) es = true ->
  amap_get d (activeConnections (run es g).1) = Some conn' ->
  conn' = conn /\
  forall socket message,
    on_device_message socket message g = (Ret tt, g, [ws_send socket (Verbatim message)]).
Proof.
  intros Hg Hes Hg'. split; [|reflexivity].
  destruct (run_record es g d conn Hes (or_intror Hg)) as [E|E]; congruence.
Qed.

(** A record is stored with both timestamps taken at connection time. *)
Lemma device_record_created h socket t1 t2 g :
  amap_get (h_deviceId h)
    (activeConnections (state_of (on_device_connection h socket t1 t2 g)))
  = Some {| dc_deviceId := h_deviceId h; dc_port := h_port h;
            connectedAt := t1; lastActive := t2 |}.
Proof. rewrite on_device_connection_eq. unfold state_of. simpl. apply amap_get_set_eq. Qed.

(** ** Idle reaper *)

(** C5, where it fails: the sweep reaches an idle device whose server is
    tracked in [deviceServers] (every device that connected and whose
    handle was not closed).  The call of [close] on the tracked entry
    throws; the loop is left, the device stays in the tracker, and
    nothing has been closed. *)
Theorem reaper_throws_on_tracked_device now g before d conn after srv :
  activeConnections g = before ++ (d, conn) :: after ->
  Forall (fun kv => idle now kv.2 = false) before ->
  idle now conn = true ->
  deviceServers g !! d = Some srv ->
  cleanupInactiveDevices now g = (Throw TypeError, g, []) /\
  amap_get d (activeConnections (state_of (cleanupInactiveDevices now g)))
  = amap_get d (activeConnections g).
Proof.
  intros Hconns Hbefore Hidle Hsrv.
  assert (E : cleanupInactiveDevices now g = (Throw TypeError, g, [])).
  { unfold cleanupInactiveDevices, bind, get. rewrite Hconns. clear Hconns.
    induction Hbefore as [|[k v] before Hk _ IH]; cbn [app for_of]; unfold bind.
    - rewrite reap_eq, Hidle, Hsrv. reflexivity.
    - rewrite reap_eq. simpl in Hk. rewrite Hk.
      unfold bind in IH. rewrite IH. reflexivity. }
  split; [exact E | rewrite E; reflexivity].
Qed.

(** What the sweep does get right.  A device within the threshold is
    never removed. *)
Lemma sweep_keeps k now entries g :
  (forall conn, (k, conn) ∈ entries -> idle now conn = false) ->
  amap_get k (activeConnections (for_of entries (reap now) g).1.2)
  = amap_get k (activeConnections g).
Proof.
  revert g. induction entries as [|[d conn] entries IH]; intros g Hk; [reflexivity|].
  cbn [for_of]. unfold bind. rewrite reap_eq.
  assert (Hk' : forall conn0, (k, conn0) ∈ entries -> idle now conn0 = false).
  { intros conn0 Hin. apply Hk. right. exact Hin. }
  destruct (idle now conn) eqn:Hi.
  - destruct (deviceServers g !! d); [reflexivity|].
    specialize (IH (set_connections (amap_delete d) g) Hk').
    destruct (for_of entries (reap now) _) as [[o g1] t1]. simpl in *. rewrite IH.
    apply amap_get_delete_ne. intros ->.
    rewrite (Hk conn) in Hi; [discriminate | left].
  - specialize (IH g Hk'). destruct (for_of entries (reap now) g) as [[o g1] t1]. exact IH.
Qed.

Lemma amap_get_elem_of {V} k (v v' : V) (m : list (string * V)) :
  NoDup m.*1 -> amap_get k m = Some v -> (k, v') ∈ m -> v' = v.
Proof.
  induction m as [|[k0 v0] m IH]; simpl; intros Hnd Hget Hin; [inversion Hin|].
  apply NoDup_cons in Hnd as [Hnotin Hnd].
  destruct (String.eqb_spec k0 k) as [->|Hne].
  - injection Hget as <-. apply elem_of_cons in Hin as [E|Hin]; [congruence|].
    exfalso. apply Hnotin. apply list_elem_of_fmap. exists (k, v'). split; [reflexivity | exact Hin].
  - apply elem_of_cons in Hin as [E|Hin]; [congruence|]. apply IH; assumption.
Qed.

Lemma reaper_keeps_active now g d conn :
  NoDup (activeConnections g).*1 ->
  amap_get d (activeConnections g) = Some conn ->
  idle now conn = false ->
  amap_get d (activeConnections (state_of (cleanupInactiveDevices now g))) = Some conn.
Proof.
  intros Hnd Hget Hi. unfold cleanupInactiveDevices, bind, get, state_of.
  pose proof (sweep_keeps d now (activeConnections g) g) as H.
  destruct (for_of _ _ g) as [[o g1] t1]. simpl in *. rewrite H; [exact Hget|].
  intros conn0 Hin. rewrite (amap_get_elem_of d conn conn0 _ Hnd Hget Hin). exact Hi.
Qed.

(** When no idle device has a tracked server, the sweep completes and
    every idle device is gone. *)
Lemma sweep_removes now entries g :
  (forall k conn, (k, conn) ∈ entries -> idle now conn = true -> deviceServers g !! k = None) ->
  (for_of entries (reap now) g).1.1 = Ret tt /\
  forall k conn, (k, conn) ∈ entries -> idle now conn = true ->
    amap_get k (activeConnections (for_of entries (reap now) g).1.2) = None.
Proof.
  revert g. induction entries as [|[d conn] entries IH]; intros g Hun.
  { split; [reflexivity|]. intros k conn0 Hin. inversion Hin. }
  cbn [for_of]. unfold bind. rewrite reap_eq.
  assert (Hun' : forall k conn0, (k, conn0) ∈ entries -> idle now conn0 = true ->
                                 deviceServers g !! k = None).
  { intros k conn0 Hin. apply Hun. right. exact Hin. }
  destruct (idle now conn) eqn:Hi.
  - rewrite (Hun d conn) by (left || assumption).
    destruct (IH (set_connections (amap_delete d) g) Hun') as [Hr Hgone].
    destruct (sweep_frame now entries (set_connections (amap_delete d) g))
      as (o & conns & E & Hc & _).
    rewrite E in Hr, Hgone |- *. simpl in *. split; [exact Hr|].
    intros k conn0 Hin Hidle. apply elem_of_cons in Hin as [Heq|Hin].
    + injection Heq as -> ->. destruct (Hc d) as [H|H]; [exact H|].
      rewrite H. apply amap_get_delete_eq.
    + eapply Hgone; eassumption.
  - destruct (IH g Hun') as [Hr Hgone].
    destruct (for_of entries (reap now) g) as [[o g1] t1]. simpl in *. split; [exact Hr|].
    intros k conn0 Hin Hidle. apply elem_of_cons in Hin as [Heq|Hin].
    + injection Heq as -> ->. congruence.
    + eapply Hgone; eassumption.
Qed.

(** ** The worker script *)

Section WorkerProps.

Import Worker.

Lemma digit_value_char d :
  (d < 10)%N -> digit_value (pretty_N_char d) = Some (Z.of_N d).
Proof.
  intros H.
  assert (d = 0 \/ d = 1 \/ d = 2 \/ d = 3 \/ d = 4 \/ d = 5 \/ d = 6 \/ d = 7
          \/ d = 8 \/ d = 9)%N as Hd by lia.
  repeat (destruct Hd as [->|Hd]; [reflexivity|]). subst. reflexivity.
Qed.

(** A string that starts with a digit 1-9 has no whitespace, sign or
    [0x] prefix for [parseInt] to strip. *)
Lemma parseInt_string_digit a rest v :
  digit_value a = Some v -> 1 <= v < 10 ->
  parseInt_string (String a rest)
  = match digits 10 (String a rest) false 0 with
    | Some n => Some (1 * n)
    | None => None
    end.
Proof.
  destruct a as [[] [] [] [] [] [] [] []]; intros H1 H2; vm_compute in H1;
    try discriminate H1; injection H1 as <-; try lia; reflexivity.
Qed.

(** Reading back the digits that [pretty] writes. *)
Lemma digits_pretty_N_go x :
  (0 < x)%N ->
  forall s, exists a rest,
    pretty_N_go x s = String a rest /\
    (exists v, digit_value a = Some v /\ 1 <= v < 10) /\
    exists n, 0 <= n /\
      forall seen acc,
        digits 10 (String a rest) seen acc = digits 10 s true (acc * 10 ^ n + Z.of_N x).
Proof.
  induction (N.lt_wf_0 x) as [x _ IH]. intros Hx s.
  rewrite pretty_N_go_step by assumption.
  assert (Hm : (x `mod` 10 < 10)%N) by (apply N.mod_lt; discriminate).
  assert (Hdm : x = (10 * (x `div` 10) + x `mod` 10)%N) by (apply N.div_mod; discriminate).
  destruct (decide (x `div` 10 = 0)%N) as [Hz|Hnz].
  - rewrite Hz, pretty_N_go_0. eexists _, _. split; [reflexivity|].
    assert (x `mod` 10 = x)%N as Hxm by lia. rewrite Hxm in *. split.
    + exists (Z.of_N x). split; [apply digit_value_char; assumption | lia].
    + exists 1. split; [lia|]. intros seen acc. cbn [digits].
      rewrite digit_value_char by assumption.
      destruct (Z.ltb_spec (Z.of_N x) 10); [|lia].
      f_equal; lia.
  - destruct (IH (x `div` 10)%N) with (s := String (pretty_N_char (x `mod` 10)) s)
      as (a & rest & -> & Hlead & n & Hn & Hread).
    { apply N.div_lt; [assumption | reflexivity]. }
    { lia. }
    eexists _, _. split; [reflexivity|]. split; [exact Hlead|].
    exists (n + 1). split; [lia|]. intros seen acc. rewrite Hread. cbn [digits].
    rewrite digit_value_char by assumption.
    destruct (Z.ltb_spec (Z.of_N (x `mod` 10)) 10); [|lia].
    f_equal; rewrite Z.pow_add_r by lia; rewrite Hdm at 3; lia.
Qed.

Lemma parseInt_toString p : 0 <= p -> parseInt_string (Number_toString p) = Some p.
Proof.
  intros Hp. destruct p as [|q|q]; [reflexivity| |lia].
  unfold Number_toString, pretty, pretty_Z, pretty, pretty_positive, pretty, pretty_N.
  destruct (decide (N.pos q = 0%N)) as [E|_]; [discriminate E|].
  destruct (digits_pretty_N_go (N.pos q) eq_refl "")
    as (a & rest & -> & (v & Hv & Hr) & n & Hn & Hread).
  rewrite (parseInt_string_digit a rest v Hv Hr), Hread. cbn [digits].
  f_equal; simpl; lia.
Qed.

Lemma indexOf_port_args d s :
  d <> "--port" -> indexOf "--port" ["--device-id"; d; "--port"; s] = 2.
Proof.
  intros Hd. cbn [indexOf].
  replace (String.eqb "--device-id" "--port") with false by reflexivity.
  apply String.eqb_neq in Hd. rewrite Hd, String.eqb_refl. reflexivity.
Qed.





End WorkerProps.

(** * Witnesses and scenarios *)

(** The sample connection is the one the upgrade handler makes. *)
Example sample_conn1_connected :
  result_of (on_upgrade (sample_request "key1") 1%nat 1%nat 1000 1000 initial)
  = Ret sample_conn1.
Proof. reflexivity. Qed.

(** C1 on the one-client state: the client echoes "hello" to itself. *)
Lemma chat_echo_origin_only_witness :
  sessions_wf sample_one_client /\
  is_Some (activeIsolatedSessions sample_one_client !! "key1-1000") /\
  is_chat (JObj (sample_chat_props "key1-1000")) /\
  sends (trace_of (on_message sample_conn1 "2026-01-01T00:00:00.000Z" SaveRejected
                     (JSONText (JObj (sample_chat_props "key1-1000"))) sample_one_client))
  = [(1%nat,
      JSON_stringify (echo_frame sample_conn1 (JObj (sample_chat_props "key1-1000"))
                        "2026-01-01T00:00:00.000Z"))].
Proof.
  assert (Hwf : sessions_wf sample_one_client) by (vm_compute; reflexivity).
  assert (Hsid : get_prop (JObj (sample_chat_props "key1-1000")) "sessionId"
                 = Ret (Some (JStr "key1-1000"))) by (vm_compute; reflexivity).
  assert (Hreg : is_Some (activeIsolatedSessions sample_one_client !! "key1-1000"))
    by (exists (session_of sample_conn1); vm_compute; reflexivity).
  assert (Hc : is_chat (JObj (sample_chat_props "key1-1000"))) by reflexivity.
  split; [exact Hwf|]. split; [exact Hreg|]. split; [exact Hc|].
  exact (proj1 (chat_echo_origin_only sample_conn1 "2026-01-01T00:00:00.000Z" SaveRejected
                  sample_one_client _ _ Hwf Hsid Hreg Hc)).
Defined.

(** C10 with two clients: the second sends a chat frame that names the
    first one's session. *)
Lemma foreign_session_id_accepted_witness :
  closes (trace_of (on_message sample_conn2 "2026-01-01T00:00:00.000Z" SaveFulfilled
                      (JSONText (JObj (sample_chat_props "key1-1000"))) sample_two_clients))
  = [] /\
  sends (trace_of (on_message sample_conn2 "2026-01-01T00:00:00.000Z" SaveFulfilled
                     (JSONText (JObj (sample_chat_props "key1-1000"))) sample_two_clients))
  = [(2%nat,
      JSON_stringify (echo_frame sample_conn2 (JObj (sample_chat_props "key1-1000"))
                        "2026-01-01T00:00:00.000Z"))].
Proof.
  assert (H1 : sample_chat_props "key1-1000" !! "sessionId" = Some (JStr "key1-1000"))
    by (vm_compute; reflexivity).
  assert (H2 : sample_chat_props "key1-1000" !! "type" = Some (JStr "chat"))
    by (vm_compute; reflexivity).
  assert (H3 : sessions_wf sample_two_clients) by (vm_compute; reflexivity).
  assert (H4 : activeIsolatedSessions sample_two_clients !! "key1-1000"
               = Some (session_of sample_conn1)) by (vm_compute; reflexivity).
  assert (H5 : "key1-1000" <> c_sessionId sample_conn2) by discriminate.
  assert (H6 : ws (session_of sample_conn1) <> c_ws sample_conn2) by discriminate.
  pose proof (foreign_session_id_accepted sample_conn2 "2026-01-01T00:00:00.000Z"
                SaveFulfilled sample_two_clients _ _ _ H1 H2 H3 H4 H5 H6) as H.
  exact (conj (proj1 H) (proj1 (proj2 H))).
Defined.

(** C7: a second socket registers under the session id of the first. *)
Lemma register_replaces_existing_witness :
  activeIsolatedSessions sample_one_client !! ("key1" +:+ "-" +:+ pretty 1000)
  = Some (session_of sample_conn1) /\
  exists c,
    result_of (on_connection 2%nat "10.0.0.2" "key1" 2%nat 1000 sample_one_client) = Ret c /\
    activeIsolatedSessions
      (state_of (on_connection 2%nat "10.0.0.2" "key1" 2%nat 1000 sample_one_client))
      !! c_sessionId c = Some (session_of c) /\
    ws (session_of c) = 2%nat.
Proof.
  assert (H : activeIsolatedSessions sample_one_client !! ("key1" +:+ "-" +:+ pretty 1000)
              = Some (session_of sample_conn1)) by (vm_compute; reflexivity).
  split; [exact H|].
  destruct (register_replaces_existing 2%nat "10.0.0.2" "key1" 2%nat 1000
              sample_one_client _ H) as (c & H1 & _ & H3 & H4 & _).
  exists c. split; [exact H1|]. split; [exact H3 | exact H4].
Defined.

(** C4: two workers around a worker exit, and two device servers of one
    factory. *)
Lemma ports_increase_per_counter_witness :
  (exists p1 p2,
     result_of (createIsolatedProcess "a" 1%nat initial) = Ret p1 /\
     result_of (createIsolatedProcess "b" 2%nat
                  (run [EvWorkerExit "a"]
                     (state_of (createIsolatedProcess "a" 1%nat initial))).1) = Ret p2 /\
     ph_port p1 = 3000 /\ ph_port p1 < ph_port p2) /\
  h_port sample_handle < 3001.
Proof.
  pose proof (ports_increase_per_counter [EvWorkerExit "a"] initial) as [Hp _].
  pose proof (ports_increase_per_counter []
                (state_of (createDeviceIsolatedServer 3000 initial))) as [_ Hd].
  split.
  - apply (Hp "a" 1%nat "b" 2%nat). reflexivity.
  - refine (proj2 (Hd 0%nat "a" 1%nat 1%nat "b" 2%nat 2%nat sample_handle
                     {| h_port := 3001; h_httpServer := 2%nat; h_wss := 2%nat;
                        h_deviceId := "b" |} _ _));
      vm_compute; reflexivity.
Defined.

(** C6: the record of device "a" after traffic and a sweep. *)
Lemma device_record_never_mutated_witness :
  amap_get "a" (activeConnections sample_device_connected) = Some sample_record /\
  forallb (fun e => negb (connects "a" e)) sample_traffic = true /\
  amap_get "a" (activeConnections (run sample_traffic sample_device_connected).1)
  = Some sample_record /\
  lastActive sample_record = 1000.
Proof.
  assert (H1 : amap_get "a" (activeConnections sample_device_connected) = Some sample_record)
    by (vm_compute; reflexivity).
  assert (H2 : forallb (fun e => negb (connects "a" e)) sample_traffic = true)
    by reflexivity.
  assert (H3 : amap_get "a" (activeConnections (run sample_traffic sample_device_connected).1)
               = Some sample_record) by (vm_compute; reflexivity).
  split; [exact H1|]. split; [exact H2|]. split; [exact H3|].
  exact (f_equal lastActive
           (proj1 (device_record_never_mutated "a" sample_record sample_traffic
                     sample_device_connected sample_record H1 H2 H3))).
Defined.

(** C5: the sweep half an hour (and a second) after device "a"
    connected. *)
Lemma reaper_throws_on_tracked_device_witness :
  idle 1801001 sample_record = true /\
  cleanupInactiveDevices 1801001 sample_device_connected
  = (Throw TypeError, sample_device_connected, []) /\
  amap_get "a" (activeConnections
                  (state_of (cleanupInactiveDevices 1801001 sample_device_connected)))
  = Some sample_record.
Proof.
  assert (H1 : activeConnections sample_device_connected = [] ++ ("a", sample_record) :: [])
    by (vm_compute; reflexivity).
  assert (H2 : Forall (fun kv : string * DeviceConnection => idle 1801001 kv.2 = false) [])
    by constructor.
  assert (H3 : idle 1801001 sample_record = true) by reflexivity.
  assert (H4 : deviceServers sample_device_connected !! "a"
               = Some {| httpServer := 1%nat; wss := 1%nat; ds_ws := Some 7%nat |})
    by (vm_compute; reflexivity).
  pose proof (reaper_throws_on_tracked_device 1801001 sample_device_connected
                [] "a" sample_record [] _ H1 H2 H3 H4) as [E1 E2].
  split; [exact H3|]. split; [exact E1|].
  rewrite E2, H1. reflexivity.
Defined.


(** The two scenarios of the protocol description.  A client subscribes
    to "alerts" and gets one [subscribed] frame naming the channel. *)
Example subscribe_alerts :
  sends (trace_of (on_message sample_conn1 "2026-01-01T00:00:00.000Z" SaveFulfilled
                     (JSONText (sample_subscribe "key1-1000")) sample_one_client))
  = [(1%nat, JSON_stringify (subscribed_frame (Some (JStr "alerts"))))].
Proof. vm_compute. reflexivity. Qed.

(** A client says "hello": one echo with that content and a timestamp,
    and one persistence call against its device id. *)
Example chat_hello :
  let t := trace_of (on_message sample_conn1 "2026-01-01T00:00:00.000Z" SaveFulfilled
                       (JSONText (JObj (sample_chat_props "key1-1000"))) sample_one_client) in
  exists echo,
    sends t = [(1%nat, JSON_stringify echo)] /\
    get_prop echo "content" = Ret (Some (JStr "hello")) /\
    get_prop echo "timestamp" = Ret (Some (JStr "2026-01-01T00:00:00.000Z")) /\
    saves t = [("key1", Some (JStr "hello"))].
Proof.
  eexists. split; [vm_compute; reflexivity|].
  repeat split; vm_compute; reflexivity.
Qed.

(** * Further properties of the code *)

(** ** Message router: the other branches *)

(** X1: a [subscribe] frame that carries a registered session id and
    whose [channel] converts to a string (a string, a number, a
    boolean, [null], absent, or an object or list without a "toString"
    key inside) is answered by one [subscribed] frame on the socket it
    arrived on, carrying the frame's [channel] (no [channel] key when
    the frame has none).  When the conversion throws, the error is
    logged and no frame is sent.  Either way nothing is persisted, the
    socket is not closed, and the globals are untouched. *)
Theorem subscribe_acknowledged c iso r g parsed sid :
  sessions_wf g ->
  get_prop parsed "sessionId" = Ret (Some (JStr sid)) ->
  is_Some (activeIsolatedSessions g !! sid) ->
  is_subscribe parsed ->
  let res := on_message c iso r (JSONText parsed) g in
  exists channel,
    get_prop parsed "channel" = Ret channel /\
    (template_throws channel = false ->
     trace_of res = [console (LogSubscribed channel);
                     ws_send (c_ws c) (JSON_stringify (subscribed_frame channel))] /\
     sends (trace_of res) = [(c_ws c, JSON_stringify (subscribed_frame channel))]) /\
    (template_throws channel = true ->
     trace_of res = [console (ErrIsolatedSession TypeError)] /\
     sends (trace_of res) = []) /\
    get_prop (subscribed_frame channel) "type" = Ret (Some (JStr "subscribed")) /\
    get_prop (subscribed_frame channel) "channel" = Ret channel /\
    saves (trace_of res) = [] /\
    closes (trace_of res) = [] /\
    state_of res = g.
Proof.
  intros Hwf Hsid Hreg Hsub res.
  pose proof (registered_session_valid g parsed sid Hwf Hsid Hreg) as Hv.
  destruct (on_message_subscribe c iso r g parsed Hv Hsub) as (channel & Hch & E).
  exists channel. subst res. rewrite E. unfold trace_of, state_of. cbn [fst snd].
  split; [exact Hch|].
  split; [intros ->; split; reflexivity|].
  split; [intros ->; split; reflexivity|].
  split; [unfold subscribed_frame; simpl; rewrite lookup_insert_eq; reflexivity|].
  split.
  { destruct channel as [ch|]; simpl.
    - rewrite lookup_insert_ne by discriminate. rewrite lookup_insert_eq. reflexivity.
    - rewrite lookup_insert_ne by discriminate. reflexivity. }
  destruct (template_throws channel); repeat split.
Qed.

(** X2: a frame with a registered session id whose [type] is neither
    "chat" nor "subscribe" (or is missing) is logged and ignored. *)
Theorem unknown_type_ignored c iso r g parsed sid :
  sessions_wf g ->
  get_prop parsed "sessionId" = Ret (Some (JStr sid)) ->
  is_Some (activeIsolatedSessions g !! sid) ->
  ~ is_chat parsed -> ~ is_subscribe parsed ->
  let res := on_message c iso r (JSONText parsed) g in
  exists type,
    get_prop parsed "type" = Ret type /\
    trace_of res = [console (LogUnknownType type)] /\
    sends (trace_of res) = [] /\ saves (trace_of res) = [] /\ closes (trace_of res) = [] /\
    state_of res = g.
Proof.
  intros Hwf Hsid Hreg Hc Hs res.
  pose proof (registered_session_valid g parsed sid Hwf Hsid Hreg) as Hv.
  destruct (on_message_other c iso r g parsed Hv Hc Hs) as (type & Hty & E).
  exists type. subst res. rewrite E. repeat split. exact Hty.
Qed.

(** X6: whatever the frame and whatever the persistence call does, the
    ['message'] listener returns normally and leaves the globals as they
    were. *)
Theorem on_message_never_throws c iso r message g :
  result_of (on_message c iso r message g) = Ret tt /\
  state_of (on_message c iso r message g) = g.
Proof.
  destruct (on_message_handled c iso r message g) as (t & -> & _). split; reflexivity.
Qed.

(** X7: only a string can pass for a session id.  A parsed frame other
    than [null] that is not an object with a string [sessionId] (a bare
    string or list, an object whose [sessionId] is missing or is a
    number, [true], a list, an object) closes the socket with 1008, in
    every state. *)
Theorem frame_without_string_session_id_closed c iso r g parsed :
  parsed <> JNull ->
  (forall props s, parsed = JObj props -> props !! "sessionId" <> Some (JStr s)) ->
  let t := trace_of (on_message c iso r (JSONText parsed) g) in
  closes t = [(c_ws c, 1008, "Invalid session")] /\ sends t = [] /\ saves t = [].
Proof.
  intros Hnn Hns t. subst t. rewrite on_message_invalid; [repeat split | exact Hnn |].
  intros (sid & Hsid & Ht & Hh).
  destruct parsed; try (simpl in Hsid; injection Hsid as <-; discriminate Ht);
    [congruence|].
  simpl in Hsid. injection Hsid as <-.
  destruct (props !! "sessionId") as [[]|] eqn:E; try discriminate Hh.
  eapply Hns; [reflexivity | exact E].
Qed.

Lemma frame_of_sessionId type sid rest :
  get_prop (frame_of type sid rest) "sessionId" = Ret (Some (JStr sid)).
Proof.
  unfold frame_of. simpl. rewrite lookup_insert_ne by discriminate.
  rewrite lookup_insert_eq. reflexivity.
Qed.

Lemma frame_of_type type sid rest :
  get_prop (frame_of type sid rest) "type" = Ret (Some (JStr type)).
Proof. unfold frame_of. simpl. rewrite lookup_insert_eq. reflexivity. Qed.

Lemma named_session_chat c iso r g rest sid :
  sid <> "" -> is_Some (activeIsolatedSessions g !! sid) ->
  on_message c iso r (JSONText (frame_of "chat" sid rest)) g
  = (Ret tt, g,
     [ws_send (c_ws c) (JSON_stringify (echo_frame c (frame_of "chat" sid rest) iso));
      call_saveChatMessage (c_deviceId c) (content_of (frame_of "chat" sid rest))]
     ++ save_tail r).
Proof.
  intros Hne Hreg. apply on_message_chat; [|apply frame_of_type].
  exists (Some (JStr sid)). split; [apply frame_of_sessionId|]. split.
  - simpl. apply negb_true_iff, String.eqb_neq, Hne.
  - simpl. apply bool_decide_eq_true, Hreg.
Qed.

Lemma unregistered_session_closed c iso r g type rest sid :
  activeIsolatedSessions g !! sid = None ->
  on_message c iso r (JSONText (frame_of type sid rest)) g
  = (Ret tt, g, [ws_close (c_ws c) 1008 "Invalid session"]).
Proof.
  intros Hnone. apply on_message_invalid; [discriminate|].
  intros (x & Hsid & _ & Hh). rewrite frame_of_sessionId in Hsid. injection Hsid as <-.
  simpl in Hh. apply bool_decide_eq_true in Hh. rewrite Hnone in Hh.
  destruct Hh as [? Hh]. discriminate Hh.
Qed.

(** X8: the session id handed out at connection time works at once: in
    any state, a chat frame carrying the id just issued is echoed on the
    new socket and the socket is not closed. *)
Theorem fresh_session_accepted request isolatedWss socket t0 t1 iso r rest g :
  let res := on_upgrade request isolatedWss socket t0 t1 g in
  exists c,
    result_of res = Ret c /\
    sends (trace_of (on_message c iso r (JSONText (frame_of "chat" (c_sessionId c) rest))
                       (state_of res)))
    = [(socket, JSON_stringify (echo_frame c (frame_of "chat" (c_sessionId c) rest) iso))] /\
    closes (trace_of (on_message c iso r (JSONText (frame_of "chat" (c_sessionId c) rest))
                        (state_of res)))
    = [].
Proof.
  intros res. subst res. unfold on_upgrade. rewrite on_connection_eq.
  eexists. split; [reflexivity|]. unfold state_of. cbn [fst snd c_sessionId].
  rewrite named_session_chat.
  - unfold trace_of. cbn [fst snd]. simpl sends. simpl closes.
    rewrite sends_save_tail, closes_save_tail. split; reflexivity.
  - apply session_id_nonempty.
  - simpl. rewrite lookup_insert_eq. eauto.
Qed.

Lemma on_close_eq c g :
  on_close c g
  = (Ret tt, set_sessions (delete (c_sessionId c)) g, [console LogClientDisconnected]).
Proof. reflexivity. Qed.

(** X9: closing a connection removes its session id from the registry
    and nothing else; closing twice is the same as closing once; from
    then on a frame that names the id, on whatever socket it arrives, is
    answered by closing that socket with 1008. *)
Theorem close_unregisters c g c' iso r rest type :
  let g1 := state_of (on_close c g) in
  activeIsolatedSessions g1 !! c_sessionId c = None /\
  (forall k, k <> c_sessionId c ->
     activeIsolatedSessions g1 !! k = activeIsolatedSessions g !! k) /\
  state_of (on_close c g1) = g1 /\
  closes (trace_of (on_message c' iso r
                      (JSONText (frame_of type (c_sessionId c) rest)) g1))
  = [(c_ws c', 1008, "Invalid session")].
Proof.
  intros g1. subst g1. rewrite !on_close_eq. unfold state_of. cbn [fst snd].
  split; [apply lookup_delete_eq|]. split; [|split].
  - intros k Hk. apply lookup_delete_ne. congruence.
  - destruct g. unfold set_sessions. simpl. f_equal. apply delete_delete_eq.
  - rewrite unregistered_session_closed; [reflexivity|]. apply lookup_delete_eq.
Qed.

(** X10: two connections that came with the same handshake key in the
    same millisecond share one registry entry.  When the first of them
    closes, the entry goes, and the second, still open, has its next
    chat frame (carrying the id it was issued) answered with 1008. *)
Theorem close_of_twin_unregisters_other request wss1 ws1 wss2 ws2 t0 t1 iso r rest g :
  let r1 := on_upgrade request wss1 ws1 t0 t1 g in
  let r2 := on_upgrade request wss2 ws2 t0 t1 (state_of r1) in
  exists c1 c2,
    result_of r1 = Ret c1 /\ result_of r2 = Ret c2 /\
    c_ws c1 = ws1 /\ c_ws c2 = ws2 /\
    c_sessionId c1 = c_sessionId c2 /\
    trace_of (on_message c2 iso r (JSONText (frame_of "chat" (c_sessionId c2) rest))
                (state_of (on_close c1 (state_of r2))))
    = [ws_close ws2 1008 "Invalid session"].
Proof.
  intros r1 r2. subst r1 r2. unfold on_upgrade. rewrite !on_connection_eq.
  eexists _, _. repeat (split; [reflexivity|]).
  rewrite on_close_eq. unfold state_of. cbn [fst snd c_sessionId].
  rewrite unregistered_session_closed; [reflexivity|]. apply lookup_delete_eq.
Qed.

(** ** Identifiers *)

Lemma append_inv_head (s a b : string) : s +:+ a = s +:+ b -> a = b.
Proof. induction s as [|x s IH]; simpl; intros H; [exact H | injection H as H; auto]. Qed.

Lemma has_dash_append s p : has_dash (s +:+ "-" +:+ p) = true.
Proof. induction s as [|x s IH]; simpl; [reflexivity|]. rewrite IH. apply orb_true_r. Qed.

(** A dash-free suffix after the last dash determines the split. *)
Lemma dash_split s1 p1 s2 p2 :
  has_dash p1 = false -> has_dash p2 = false ->
  s1 +:+ "-" +:+ p1 = s2 +:+ "-" +:+ p2 -> s1 = s2 /\ p1 = p2.
Proof.
  intros H1 H2. revert s2. induction s1 as [|x s1 IH]; intros [|y s2] E; simpl in E.
  - injection E as E. auto.
  - injection E as Ex E. change (p1 = s2 +:+ "-" +:+ p2) in E. subst p1.
    rewrite has_dash_append in H1. discriminate H1.
  - injection E as Ex E. change (s1 +:+ "-" +:+ p1 = p2) in E. subst p2.
    rewrite has_dash_append in H2. discriminate H2.
  - injection E as -> E. destruct (IH s2 E) as [-> ->]. auto.
Qed.

Lemma pretty_N_char_not_dash d : (d < 10)%N -> Ascii.eqb (pretty_N_char d) "-" = false.
Proof.
  intros H.
  assert (d = 0 \/ d = 1 \/ d = 2 \/ d = 3 \/ d = 4 \/ d = 5 \/ d = 6 \/ d = 7
          \/ d = 8 \/ d = 9)%N as Hd by lia.
  repeat (destruct Hd as [->|Hd]; [reflexivity|]). subst. reflexivity.
Qed.

Lemma has_dash_pretty_N_go x s : has_dash (pretty_N_go x s) = has_dash s.
Proof.
  revert s. induction (N.lt_wf_0 x) as [x _ IH]. intros s.
  destruct (decide (x = 0)%N) as [->|Hx]; [reflexivity|].
  rewrite pretty_N_go_step by lia. rewrite IH by (apply N.div_lt; lia).
  simpl. rewrite pretty_N_char_not_dash; [reflexivity|]. apply N.mod_lt. discriminate.
Qed.

Lemma has_dash_pretty (t : Z) : 0 <= t -> has_dash (pretty t) = false.
Proof.
  intros Ht. destruct t as [|q|q]; [reflexivity| |lia].
  unfold pretty, pretty_Z, pretty, pretty_positive, pretty, pretty_N.
  destruct (decide (N.pos q = 0%N)) as [E|_]; [discriminate E|].
  apply has_dash_pretty_N_go.
Qed.

(** X11: a session id determines the device id and the (non-negative)
    clock reading it was made from: two connections get the same session
    id only with the same device id in the same millisecond. *)
Theorem session_id_injective wss1 ip1 d1 ws1 t1 g1 wss2 ip2 d2 ws2 t2 g2 c1 c2 :
  0 <= t1 -> 0 <= t2 ->
  result_of (on_connection wss1 ip1 d1 ws1 t1 g1) = Ret c1 ->
  result_of (on_connection wss2 ip2 d2 ws2 t2 g2) = Ret c2 ->
  c_sessionId c1 = c_sessionId c2 ->
  d1 = d2 /\ t1 = t2.
Proof.
  intros H1 H2 E1 E2 E. rewrite on_connection_eq in E1, E2.
  injection E1 as <-. injection E2 as <-. simpl in E.
  destruct (dash_split d1 (pretty t1) d2 (pretty t2)) as [-> Hp];
    [apply has_dash_pretty; assumption .. | exact E |].
  split; [reflexivity|]. apply (inj pretty). exact Hp.
Qed.

Lemma step_sessions e g :
  activeIsolatedSessions (step e g).1.2
  = match e with
    | EvUpgrade request isolatedWss socket t0 t1 =>
        <[derive_deviceId request t0 +:+ "-" +:+ pretty t1 :=
            {| ws := socket; server := isolatedWss; ip := derive_ip request;
               deviceId := derive_deviceId request t0 |}]> (activeIsolatedSessions g)
    | EvClose c => delete (c_sessionId c) (activeIsolatedSessions g)
    | _ => activeIsolatedSessions g
    end.
Proof.
  destruct e; cbn [step]; unfold discard, bind; try reflexivity.
  - rewrite on_history_eq. reflexivity.
  - destruct (on_message_handled c iso r message g) as (t & -> & _). reflexivity.
  - destruct (localPortCounters g !! factory) as [port|] eqn:Hf.
    + rewrite (createForDevice_eq _ _ _ _ _ _ Hf).
      destruct ((0 <=? port) && (port <=? 65535)); reflexivity.
    + rewrite createForDevice_dangling by assumption. reflexivity.
  - destruct (cleanupInactiveDevices_frame now g) as (o & conns & -> & _). reflexivity.
Qed.

(** X12: in every state the server can reach, each registered session
    sits under its own device id followed by a dash and a decimal clock
    reading; in particular no session id is empty. *)
Theorem reachable_sessions_keyed g :
  reachable g ->
  sessions_keyed g /\ activeIsolatedSessions g !! "" = None.
Proof.
  intros [es <-].
  assert (H : sessions_keyed (run es initial).1).
  { apply run_invariant; [|intros sid s Hs; discriminate Hs].
    intros e g0 Hk sid s. rewrite step_sessions. destruct e; try apply Hk.
    - intros Hs. apply lookup_insert_Some in Hs as [[<- <-]|[_ Hs]]; [eauto | eapply Hk, Hs].
    - intros Hs. apply lookup_delete_Some in Hs as [_ Hs]. eapply Hk, Hs. }
  split; [exact H|].
  destruct (activeIsolatedSessions (run es initial).1 !! "") as [s|] eqn:E; [|reflexivity].
  destruct (H "" s E) as [now Hnow]. symmetry in Hnow.
  destruct (session_id_nonempty _ _ Hnow).
Qed.

(** X14: [generateDeviceId] joins user agent, handshake key, address
    and clock with dashes, a missing part counting as the empty string
    (all three missing gives "---" and the clock); for one and the same
    request the result differs whenever the clock does; requests that
    differ can still get the same id, since a part may contain a dash. *)
Theorem generateDeviceId_changes_with_time user_agent req t1 t2 :
  generateDeviceId user_agent req t1
  = default "" user_agent +:+ "-" +:+ default "" (sec_websocket_key req) +:+ "-" +:+
    default "" (remoteAddress req) +:+ "-" +:+ pretty t1 /\
  (forall ua key addr,
     generateDeviceId (Some ua)
       {| remoteAddress := Some addr; sec_websocket_key := Some key |} t1
     = ua +:+ "-" +:+ key +:+ "-" +:+ addr +:+ "-" +:+ pretty t1) /\
  (generateDeviceId user_agent req t1 = generateDeviceId user_agent req t2 -> t1 = t2) /\
  generateDeviceId None {| remoteAddress := None; sec_websocket_key := None |} t1
  = "---" +:+ pretty t1 /\
  generateDeviceId (Some "a-b") {| remoteAddress := None; sec_websocket_key := Some "c" |} t1
  = generateDeviceId (Some "a") {| remoteAddress := None; sec_websocket_key := Some "b-c" |} t1.
Proof.
  split; [reflexivity|]. split; [reflexivity|]. split; [|split; reflexivity].
  unfold generateDeviceId. intros E.
  repeat (apply append_inv_head in E). apply (inj pretty). exact E.
Qed.

(** X15: the device id derived at upgrade is never empty: it is the
    handshake key when there is a non-empty one, and otherwise the ip,
    a dash and the clock, where the ip is the remote address when there
    is a non-empty one and "unknown" otherwise. *)
Theorem derive_deviceId_nonempty request now :
  derive_deviceId request now <> "" /\
  derive_ip request <> "" /\
  (forall key, sec_websocket_key request = Some key -> key <> "" ->
     derive_deviceId request now = key) /\
  (sec_websocket_key request = None \/ sec_websocket_key request = Some "" ->
     derive_deviceId request now = derive_ip request +:+ "-" +:+ pretty now) /\
  (forall address, remoteAddress request = Some address -> address <> "" ->
     derive_ip request = address) /\
  (remoteAddress request = None \/ remoteAddress request = Some "" ->
     derive_ip request = "unknown").
Proof.
  unfold derive_deviceId, derive_ip, or_else. repeat split.
  - destruct (sec_websocket_key request) as [key|]; [|apply session_id_nonempty].
    destruct (String.eqb_spec key ""); [apply session_id_nonempty | assumption].
  - destruct (remoteAddress request) as [a|]; [|discriminate].
    destruct (String.eqb_spec a ""); [discriminate | assumption].
  - intros key -> Hne. apply String.eqb_neq in Hne. rewrite Hne. reflexivity.
  - intros [->| ->]; reflexivity.
  - intros address -> Hne. apply String.eqb_neq in Hne. rewrite Hne. reflexivity.
  - intros [->| ->]; reflexivity.
Qed.

(** ** Broadcast *)

(** X13: [broadcastMessage] sends the stringified message once to every
    client whose [readyState] is OPEN, in iteration order, and to no
    other; it closes nothing and does not touch the globals. *)
Theorem broadcast_reaches_open_clients clients message g :
  let res := broadcastMessage clients message g in
  result_of res = Ret tt /\
  state_of res = g /\
  trace_of res
  = map (fun client => ws_send client.1 (JSON_stringify message))
        (List.filter (fun client => is_OPEN client.2) clients) /\
  (forall w d, (w, d) ∈ sends (trace_of res) <-> (w, OPEN) ∈ clients /\ d = JSON_stringify message).
Proof.
  intros res. subst res.
  assert (E : broadcastMessage clients message g
              = (Ret tt, g,
                 map (fun client => ws_send client.1 (JSON_stringify message))
                   (List.filter (fun client => is_OPEN client.2) clients))).
  { unfold broadcastMessage. induction clients as [|[w s] clients IH]; [reflexivity|].
    cbn [for_of List.filter]. unfold bind. cbn [fst snd].
    destruct (is_OPEN s); unfold emit, ret in *; rewrite IH; reflexivity. }
  rewrite E. unfold result_of, state_of, trace_of. cbn [fst snd].
  repeat (split; [reflexivity|]).
  clear E. intros w d. induction clients as [|[w0 s0] clients IH]; simpl.
  - split; [intros H; inversion H | intros [H _]; inversion H].
  - destruct s0; simpl; rewrite ?elem_of_cons, IH; clear IH;
      try (split; [intros [H ->]; auto | intros [[H|H] ->]; [discriminate H | auto]]).
    split.
    + intros [H|[H ->]]; [injection H as -> ->; auto | auto].
    + intros [[H|H] ->]; [injection H as ->; left; reflexivity | right; auto].
Qed.

(** ** Idle reaper *)

(** X16: the sweep calls nothing and writes nothing but the tracker: no
    server is closed, no process is killed, and sessions, processes,
    device servers and port counters are as before; in the tracker it
    only deletes. *)
Theorem reaper_only_deletes now g :
  let res := cleanupInactiveDevices now g in
  trace_of res = [] /\
  activeIsolatedSessions (state_of res) = activeIsolatedSessions g /\
  activeProcesses (state_of res) = activeProcesses g /\
  deviceServers (state_of res) = deviceServers g /\
  portCounter (state_of res) = portCounter g /\
  localPortCounters (state_of res) = localPortCounters g /\
  forall k, amap_get k (activeConnections (state_of res)) = None \/
            amap_get k (activeConnections (state_of res)) = amap_get k (activeConnections g).
Proof.
  intros res. subst res.
  destruct (cleanupInactiveDevices_frame now g) as (o & conns & -> & Hc & _).
  repeat split. exact Hc.
Qed.

(** X17: a device whose [lastActive] is at most thirty minutes old at
    sweep time, the boundary included, keeps its record unchanged, also
    when the sweep is cut short by an exception. *)
Theorem reaper_retains_within_threshold now g d conn :
  reachable g ->
  amap_get d (activeConnections g) = Some conn ->
  now - lastActive conn <= 1800000 ->
  amap_get d (activeConnections (state_of (cleanupInactiveDevices now g))) = Some conn.
Proof.
  intros Hr Hget Hle. apply reaper_keeps_active; [|exact Hget|].
  - apply reachable_connections_NoDup, Hr.
  - unfold idle, idle_threshold. apply Z.ltb_ge. lia.
Qed.

(** X18: when no idle device has an entry in [deviceServers] (its handle
    was closed, or it never had one), the sweep runs to the end and
    every idle device is gone from the tracker. *)
Theorem reaper_removes_idle_untracked now g :
  (forall k conn, (k, conn) ∈ activeConnections g -> idle now conn = true ->
     deviceServers g !! k = None) ->
  result_of (cleanupInactiveDevices now g) = Ret tt /\
  forall k conn, (k, conn) ∈ activeConnections g -> idle now conn = true ->
    amap_get k (activeConnections (state_of (cleanupInactiveDevices now g))) = None.
Proof.
  intros H. unfold cleanupInactiveDevices, bind, get, result_of, state_of.
  destruct (sweep_removes now (activeConnections g) g H) as [Hr Hgone].
  destruct (for_of (activeConnections g) (reap now) g) as [[o g1] t1].
  cbn [fst snd] in *. split; assumption.
Qed.

(** ** Isolation strategies *)

Lemma forks_save_tail r : forks (save_tail r) = [].
Proof. destruct r; reflexivity. Qed.

Lemma step_forks e g :
  forks (step e g).2
  = match e with
    | EvCreateIsolatedProcess d _ => [worker_args d (portCounter g)]
    | _ => []
    end /\
  portCounter (step e g).1.2
  = match e with
    | EvCreateIsolatedProcess _ _ => js_succ (portCounter g)
    | _ => portCounter g
    end.
Proof.
  destruct e; cbn [step]; unfold discard, bind; try (split; reflexivity).
  - rewrite on_history_eq. destruct s; split; reflexivity.
  - destruct (on_message_handled c iso r message g) as (t & -> & H). split; [|reflexivity].
    destruct H; cbn [fst snd]; try reflexivity. simpl. apply forks_save_tail.
  - destruct (localPortCounters g !! factory) as [port|] eqn:Hf.
    + rewrite (createForDevice_eq _ _ _ _ _ _ Hf).
      destruct ((0 <=? port) && (port <=? 65535)); split; reflexivity.
    + rewrite createForDevice_dangling by assumption. split; reflexivity.
  - destruct (cleanupInactiveDevices_frame now g) as (o & conns & -> & _). split; reflexivity.
Qed.

Lemma run_forks es g :
  portCounter g + Z.of_nat (length (spawned es)) <= 2 ^ 53 ->
  forks (run es g).2
  = imap (fun i d => worker_args d (portCounter g + Z.of_nat i)) (spawned es).
Proof.
  revert g. induction es as [|e es IH]; intros g Hb; [reflexivity|].
  rewrite run_cons. cbn [snd]. unfold forks at 1. rewrite omap_app.
  fold (forks (step e g).2). fold (forks (run es (step e g).1.2).2).
  destruct (step_forks e g) as [Hf Hp]. rewrite Hf.
  destruct e as [| | | | | | | | | | |dev worker| | |];
    try (change (spawned (_ :: es)) with (spawned es) in *;
         rewrite IH by (rewrite Hp; exact Hb); rewrite Hp; reflexivity).
  change (spawned (EvCreateIsolatedProcess dev worker :: es))
    with (dev :: spawned es) in *.
  cbn [length] in Hb. rewrite Nat2Z.inj_succ in Hb.
  assert (Hs : js_succ (portCounter g) = portCounter g + 1).
  { unfold js_succ. destruct (Z.ltb_spec (portCounter g) (2 ^ 53)); lia. }
  rewrite IH by (rewrite Hp, Hs; lia). rewrite Hp, Hs.
  cbn [imap app]. rewrite Z.add_0_r. f_equal.
  apply imap_ext. intros i d _. cbv beta. unfold compose. f_equal. lia.
Qed.

(** X19: workers are forked with consecutive ports from 3000: in any run
    from module load, the k-th call of [createIsolatedProcess] (counting
    from 0, whatever else happens in between) forks worker.js with
    [--device-id <its device> --port <3000 + k>], as long as the counter
    has not reached 2^53. *)
Theorem worker_ports_numbered es :
  3000 + Z.of_nat (length (spawned es)) <= 2 ^ 53 ->
  forks (run es initial).2
  = imap (fun k d => ["--device-id"; d; "--port"; Number_toString (3000 + Z.of_nat k)])
         (spawned es).
Proof. intros H. apply (run_forks es initial H). Qed.

(** X20: the process registry is keyed by device id only.  A second
    worker spawned for a device replaces the record of the first, on a
    new port; when the first worker then exits, the record of the second
    is the one removed, so a running worker is left untracked. *)
Theorem replaced_worker_exit_unregisters_running d w1 w2 g :
  portCounter g < 2 ^ 53 ->
  let r1 := createIsolatedProcess d w1 g in
  let r2 := createIsolatedProcess d w2 (state_of r1) in
  exists p1 p2,
    result_of r1 = Ret p1 /\ result_of r2 = Ret p2 /\
    ph_port p1 < ph_port p2 /\
    activeProcesses (state_of r2) !! d
    = Some {| process := w2; ip_port := ph_port p2; ip_deviceId := d |} /\
    activeProcesses (state_of (on_worker_exit d (state_of r2))) !! d = None.
Proof.
  intros Hlt r1 r2. subst r1 r2. rewrite !createIsolatedProcess_eq.
  eexists _, _. unfold result_of, state_of. cbn [fst snd].
  split; [reflexivity|]. split; [reflexivity|]. split; [|split].
  - simpl. apply js_succ_lt, Hlt.
  - simpl. apply lookup_insert_eq.
  - simpl. apply lookup_delete_eq.
Qed.

(** X21: [createForDevice] hands out the factory's current counter
    value and moves the counter on by one, whether it succeeds or not
    (at 2^53 the counter stays where it is).  It succeeds exactly when
    the value is a TCP port (0 to 65535); otherwise [listen] throws a
    RangeError and nothing listens. *)
Theorem createForDevice_port_range factory deviceId httpServer wss g port :
  localPortCounters g !! factory = Some port ->
  safe_integer port ->
  let res := createForDevice factory deviceId httpServer wss g in
  localPortCounters (state_of res) !! factory
  = Some (if port <? 2 ^ 53 then port + 1 else port) /\
  (0 <= port <= 65535 ->
     (exists h, result_of res = Ret h /\ h_port h = port /\ h_deviceId h = deviceId) /\
     trace_of res = [http_listen httpServer port] /\
     localPortCounters (state_of res) !! factory = Some (port + 1)) /\
  (~ 0 <= port <= 65535 ->
     result_of res = Throw RangeError /\ trace_of res = []).
Proof.
  intros Hf Hsafe res. subst res. rewrite (createForDevice_eq _ _ _ _ _ _ Hf).
  unfold result_of, state_of, trace_of. cbn [fst snd]. split; [|split].
  - simpl. rewrite lookup_insert_eq. f_equal. unfold js_succ, safe_integer in *.
    destruct (Z.ltb_spec port (2 ^ 53)); [reflexivity|].
    assert (port = 2 ^ 53) as -> by lia. reflexivity.
  - intros [H1 H2]. split; [|split].
    + apply Z.leb_le in H1, H2. rewrite H1, H2. simpl. eauto.
    + apply Z.leb_le in H1, H2. rewrite H1, H2. reflexivity.
    + simpl. rewrite lookup_insert_eq. unfold js_succ.
      destruct (Z.ltb_spec port (2 ^ 53)); [reflexivity | lia].
  - intros Hn. destruct (Z.leb_spec 0 port), (Z.leb_spec port 65535); simpl; auto; lia.
Qed.

(** X22: the two registries of a device server are cleaned by different
    events.  When the device's socket closes, its tracker record goes
    but its [deviceServers] entry, closed socket included, stays; when
    instead the handle is closed, the [deviceServers] entry goes and the
    server's [close] is called, but the tracker record stays. *)
Theorem device_registries_cleaned_separately h socket t1 t2 g :
  let g1 := state_of (on_device_connection h socket t1 t2 g) in
  (amap_get (h_deviceId h) (activeConnections (state_of (on_device_close h g1))) = None /\
   deviceServers (state_of (on_device_close h g1)) !! h_deviceId h
   = Some {| httpServer := h_httpServer h; wss := h_wss h; ds_ws := Some socket |} /\
   trace_of (on_device_close h g1) = []) /\
  (deviceServers (state_of (handle_close h g1)) !! h_deviceId h = None /\
   amap_get (h_deviceId h) (activeConnections (state_of (handle_close h g1)))
   = Some {| dc_deviceId := h_deviceId h; dc_port := h_port h;
             connectedAt := t1; lastActive := t2 |} /\
   trace_of (handle_close h g1) = [http_close (h_httpServer h)]).
Proof.
  intros g1. subst g1. rewrite on_device_connection_eq.
  unfold state_of, trace_of. cbn [fst snd]. split; split.
  - simpl. apply amap_get_delete_eq.
  - split; [|reflexivity]. simpl. apply lookup_insert_eq.
  - simpl. apply lookup_delete_eq.
  - split; [|reflexivity]. simpl. apply amap_get_set_eq.
Qed.

(** ** The worker script: arguments *)

Section WorkerArgs.

Import Worker.

Lemma parseInt_string_minus_digit a rest v :
  digit_value a = Some v -> 1 <= v < 10 ->
  parseInt_string (String "-" (String a rest))
  = match digits 10 (String a rest) false 0 with
    | Some n => Some (-1 * n)
    | None => None
    end.
Proof.
  destruct a as [[] [] [] [] [] [] [] []]; intros H1 H2; vm_compute in H1;
    try discriminate H1; injection H1 as <-; try lia; reflexivity.
Qed.

Lemma parseInt_toString_Z p : parseInt_string (Number_toString p) = Some p.
Proof.
  destruct (Z_le_gt_dec 0 p) as [Hp|Hp]; [apply parseInt_toString, Hp|].
  destruct p as [|q|q]; try lia.
  unfold Number_toString, pretty, pretty_Z, pretty, pretty_positive, pretty, pretty_N.
  destruct (decide (N.pos q = 0%N)) as [E|_]; [discriminate E|].
  destruct (digits_pretty_N_go (N.pos q) eq_refl "")
    as (a & rest & -> & (v & Hv & Hr) & n & Hn & Hread).
  change ("-" +:+ String a rest) with (String "-" (String a rest)).
  rewrite (parseInt_string_minus_digit a rest v Hv Hr), Hread. cbn [digits].
  f_equal; simpl; lia.
Qed.

Lemma parse_worker_args d p :
  d <> "--port" ->
  parse_args (worker_args d p) = {| Worker.deviceId := Some d; Worker.port := Some p |}.
Proof.
  intros Hd. unfold parse_args, worker_args.
  rewrite indexOf_port_args by assumption.
  cbn [indexOf]. rewrite String.eqb_refl.
  change (at_index _ (0 + 1)) with (Some d).
  change (at_index _ (2 + 1)) with (Some (Number_toString p)).
  cbn [parseInt]. rewrite parseInt_toString_Z. reflexivity.
Qed.

(** X24: what the parent writes the worker reads: the arguments
    [createIsolatedProcess] forks the worker with are parsed by the
    worker into the same device id and the port the caller is given
    (for every device id but the literal "--port"). *)
Theorem fork_arguments_roundtrip d w g :
  d <> "--port" ->
  exists handle args,
    result_of (createIsolatedProcess d w g) = Ret handle /\
    forks (trace_of (createIsolatedProcess d w g)) = [args] /\
    parse_args args = {| Worker.deviceId := Some d; Worker.port := Some (ph_port handle) |}.
Proof.
  intros Hd. rewrite createIsolatedProcess_eq. eexists _, _.
  split; [reflexivity|]. split; [reflexivity|].
  apply parse_worker_args, Hd.
Qed.

Lemma indexOf_absent x args : x ∉ args -> indexOf x args = -1.
Proof.
  induction args as [|a args IH]; intros Hn; [reflexivity|]. cbn [indexOf].
  apply not_elem_of_cons in Hn as [Hne Hn]. rewrite (IH Hn).
  destruct (String.eqb_spec a x); [congruence | reflexivity].
Qed.

Lemma indexOf_nonneg_or x args : indexOf x args = -1 \/ 0 <= indexOf x args.
Proof.
  induction args as [|a args IH]; [left; reflexivity|]. cbn [indexOf].
  destruct (String.eqb a x); [right; lia|].
  destruct (Z.ltb_spec (indexOf x args) 0); [left; reflexivity | right; lia].
Qed.

(** X27: [indexOf] is -1 exactly when the string does not occur;
    otherwise it is the position of the first occurrence. *)
Theorem indexOf_first_occurrence x args :
  (indexOf x args = -1 <-> x ∉ args) /\
  (x ∈ args ->
   exists i : nat,
     indexOf x args = Z.of_nat i /\ args !! i = Some x /\
     forall j, (j < i)%nat -> args !! j <> Some x).
Proof.
  assert (Hin : x ∈ args ->
          exists i : nat,
            indexOf x args = Z.of_nat i /\ args !! i = Some x /\
            forall j, (j < i)%nat -> args !! j <> Some x).
  { induction args as [|a args IH]; intros H; [inversion H|]. cbn [indexOf].
    destruct (String.eqb_spec a x) as [->|Hne].
    - exists 0%nat. split; [reflexivity|]. split; [reflexivity|]. intros j Hj. lia.
    - apply elem_of_cons in H as [->|H]; [congruence|].
      destruct (IH H) as (i & Hi & Hl & Hfirst). rewrite Hi.
      destruct (Z.ltb_spec (Z.of_nat i) 0); [lia|].
      exists (S i). split; [lia|]. split; [exact Hl|].
      intros [|j] Hj; simpl; [congruence | apply Hfirst; lia]. }
  split; [|exact Hin]. split.
  - intros E Hx. destruct (Hin Hx) as (i & Hi & _). lia.
  - apply indexOf_absent.
Qed.

(** X25: a flag that is missing is not noticed.  [indexOf] yields -1,
    the script adds 1, and the value is taken from the first argument:
    without [--port] the port is [parseInt] of the first argument, and
    without [--device-id] the device id is the first argument; with no
    arguments at all the port is NaN and [listen] throws. *)
Theorem worker_missing_flag_reads_first_argument args :
  ("--port" ∉ args -> Worker.port (parse_args args) = parseInt (args !! 0%nat)) /\
  ("--device-id" ∉ args -> Worker.deviceId (parse_args args) = args !! 0%nat) /\
  main [] = ({| Worker.deviceId := None; Worker.port := None |},
             [Worker.console (LogStarting None)], Throw RangeError).
Proof.
  unfold parse_args. cbn [Worker.port Worker.deviceId]. split; [|split; [|reflexivity]].
  - intros H. rewrite (indexOf_absent _ _ H). reflexivity.
  - intros H. rewrite (indexOf_absent _ _ H). reflexivity.
Qed.

(** X26: a worker given a port outside 0..65535 (the counter passes
    65535 after 62536 spawns; ports are safe integers) logs its start
    and dies on [listen] with a RangeError: it never listens. *)
Theorem worker_port_out_of_range d p :
  d <> "--port" -> safe_integer p -> ~ 0 <= p <= 65535 ->
  main (worker_args d p)
  = ({| Worker.deviceId := Some d; Worker.port := Some p |},
     [Worker.console (LogStarting (Some d))], Throw RangeError).
Proof.
  intros Hd _ Hp. unfold main. rewrite (parse_worker_args d p Hd).
  cbn [Worker.port Worker.deviceId Worker.listen].
  destruct (Z.leb_spec 0 p), (Z.leb_spec p 65535); simpl; try reflexivity. lia.
Qed.

End WorkerArgs.

(** ** The chat widget: suggestions *)

Section Suggestions.

Import AIChatbot.

Lemma elem_of_push_if c x l (s : string) :
  s ∈ push_if c x l -> s = x \/ s ∈ l.
Proof.
  unfold push_if. destruct c; [|auto]. intros H.
  apply elem_of_app in H as [H|H]; [auto|]. apply list_elem_of_singleton in H. auto.
Qed.

(** X28: without a profile there are no suggestions; with one there are
    always at least three and never more than five. *)
Theorem suggestions_count :
  getPersonalizedSuggestions None = [] /\
  forall p, (3 <= length (getPersonalizedSuggestions (Some p)) <= 5)%nat.
Proof.
  split; [reflexivity|]. intros p. unfold getPersonalizedSuggestions.
  rewrite length_take.
  destruct (Nat.ltb_spec (length (personalized p)) 3).
  - rewrite length_app. change (length general) with 3%nat. lia.
  - lia.
Qed.

Ltac split_suggestions H :=
  repeat match type of H with
         | _ ∈ push_if _ _ _ => apply elem_of_push_if in H as [->|H]
         | _ ∈ _ ++ [_] => apply elem_of_app in H as [H|H];
                           [|apply list_elem_of_singleton in H; subst]
         | _ ∈ [] => inversion H
         end.

Lemma personalized_not_general p s : s ∈ personalized p -> s ∉ general.
Proof.
  unfold personalized, general. intros H Hg.
  destruct (healthProfile p), (environmentalSensitivities p), (lifestyleHabits p),
    (interests p) as [i|]; try destruct (outdoorActivities i);
    split_suggestions H;
    repeat (apply elem_of_cons in Hg as [Hg|Hg]; [discriminate Hg|]);
    inversion Hg.
Qed.

(** X29: the three general questions are a fallback.  With fewer than
    three suggestions from the profile, all of those are shown, followed
    by the three general ones; with three or more, the first five from
    the profile are shown and no general one. *)
Theorem suggestions_fallback p :
  ((length (personalized p) < 3)%nat ->
   getPersonalizedSuggestions (Some p) = personalized p ++ general) /\
  ((3 <= length (personalized p))%nat ->
   getPersonalizedSuggestions (Some p) = take 5 (personalized p) /\
   forall s, s ∈ general -> s ∉ getPersonalizedSuggestions (Some p)).
Proof.
  unfold getPersonalizedSuggestions. split; intros H.
  - destruct (Nat.ltb_spec (length (personalized p)) 3); [|lia].
    apply take_ge. rewrite length_app. change (length general) with 3%nat. lia.
  - destruct (Nat.ltb_spec (length (personalized p)) 3); [lia|].
    split; [reflexivity|]. intros s Hs Hin.
    apply (personalized_not_general p s); [|exact Hs].
    exact (subseteq_take 5 (personalized p) s Hin).
Qed.

End Suggestions.

Lemma amap_set_set {V} k (v v' : V) m : amap_set k v (amap_set k v' m) = amap_set k v m.
Proof.
  induction m as [|[k0 v0] m IH]; simpl.
  - rewrite String.eqb_refl. reflexivity.
  - destruct (String.eqb_spec k0 k) as [->|Hne]; simpl.
    + rewrite String.eqb_refl. reflexivity.
    + destruct (String.eqb_spec k0 k); [contradiction | rewrite IH; reflexivity].
Qed.

(** X30: a device that connects again to its server gets a new record
    in the place of the old one: same port, both timestamps those of the
    new connection, and still one record for the device; the
    [deviceServers] entry now holds the new socket and the earlier
    socket is no longer referenced. *)
Theorem device_reconnect_replaces_record h ws1 t1 t2 ws2 t3 t4 g :
  let g1 := state_of (on_device_connection h ws1 t1 t2 g) in
  let g2 := state_of (on_device_connection h ws2 t3 t4 g1) in
  amap_get (h_deviceId h) (activeConnections g2)
  = Some {| dc_deviceId := h_deviceId h; dc_port := h_port h;
            connectedAt := t3; lastActive := t4 |} /\
  length (activeConnections g2) = length (activeConnections g1) /\
  activeConnections g2 = (activeConnections (state_of (on_device_connection h ws2 t3 t4 g))) /\
  deviceServers g2 !! h_deviceId h
  = Some {| httpServer := h_httpServer h; wss := h_wss h; ds_ws := Some ws2 |}.
Proof.
  intros g1 g2. subst g1 g2. rewrite !on_device_connection_eq.
  unfold state_of. cbn [fst snd]. simpl activeConnections. simpl deviceServers.
  rewrite amap_set_set. split; [apply amap_get_set_eq|]. split; [|split].
  - clear. induction (activeConnections g) as [|[k0 v0] m IH]; simpl; [reflexivity|].
    destruct (String.eqb k0 (h_deviceId h)); simpl; [reflexivity | rewrite IH; reflexivity].
  - reflexivity.
  - apply lookup_insert_eq.
Qed.

(** * Witnesses for the further properties *)

Lemma sample_one_client_wf : sessions_wf sample_one_client.
Proof. vm_compute. reflexivity. Defined.

Lemma sample_one_client_registered :
  is_Some (activeIsolatedSessions sample_one_client !! "key1-1000").
Proof. exists (session_of sample_conn1). vm_compute. reflexivity. Defined.

(** X1: the client on socket 1 subscribes to "alerts". *)
Lemma subscribe_acknowledged_witness :
  is_subscribe (sample_subscribe "key1-1000") /\
  sends (trace_of (on_message sample_conn1 "2026-01-01T00:00:00.000Z" SaveFulfilled
                     (JSONText (sample_subscribe "key1-1000")) sample_one_client))
  = [(1%nat, JSON_stringify (subscribed_frame (Some (JStr "alerts"))))].
Proof.
  assert (Hsid : get_prop (sample_subscribe "key1-1000") "sessionId"
                 = Ret (Some (JStr "key1-1000"))) by (vm_compute; reflexivity).
  assert (Hs : is_subscribe (sample_subscribe "key1-1000")) by (vm_compute; reflexivity).
  split; [exact Hs|].
  destruct (subscribe_acknowledged sample_conn1 "2026-01-01T00:00:00.000Z" SaveFulfilled
              sample_one_client _ _ sample_one_client_wf Hsid
              sample_one_client_registered Hs) as (channel & H1 & H2 & _).
  assert (E : channel = Some (JStr "alerts")).
  { assert (H : get_prop (sample_subscribe "key1-1000") "channel"
                = Ret (Some (JStr "alerts"))) by (vm_compute; reflexivity).
    rewrite H in H1. injection H1 as <-. reflexivity. }
  subst channel. exact (proj2 (H2 eq_refl)).
Defined.

(** X2: the client on socket 1 sends a frame of type "ping". *)
Lemma unknown_type_ignored_witness :
  ~ is_chat sample_ping /\ ~ is_subscribe sample_ping /\
  exists type,
    trace_of (on_message sample_conn1 "2026-01-01T00:00:00.000Z" SaveFulfilled
                (JSONText sample_ping) sample_one_client)
    = [console (LogUnknownType type)].
Proof.
  assert (Hsid : get_prop sample_ping "sessionId" = Ret (Some (JStr "key1-1000")))
    by (vm_compute; reflexivity).
  assert (Hty : get_prop sample_ping "type" = Ret (Some (JStr "ping")))
    by (vm_compute; reflexivity).
  assert (Hc : ~ is_chat sample_ping)
    by (unfold is_chat; rewrite Hty; intros H; discriminate H).
  assert (Hs : ~ is_subscribe sample_ping)
    by (unfold is_subscribe; rewrite Hty; intros H; discriminate H).
  split; [exact Hc|]. split; [exact Hs|].
  destruct (unknown_type_ignored sample_conn1 "2026-01-01T00:00:00.000Z" SaveFulfilled
              sample_one_client _ _ sample_one_client_wf Hsid
              sample_one_client_registered Hc Hs) as (type & _ & H & _).
  exists type. exact H.
Defined.

Lemma sample_list_frame_invalid g : ~ session_valid g sample_list_frame.
Proof. intros (sid & H & Ht & _). injection H as <-. discriminate Ht. Defined.

(** X3: a frame that is a list. *)
Lemma invalid_session_closes_witness :
  sample_list_frame <> JNull /\
  closes (trace_of (on_message sample_conn1 "2026-01-01T00:00:00.000Z" SaveFulfilled
                      (JSONText sample_list_frame) sample_one_client))
  = [(1%nat, 1008, "Invalid session")].
Proof.
  assert (H : sample_list_frame <> JNull) by discriminate.
  split; [exact H|].
  exact (proj1 (invalid_session_closes sample_conn1 "2026-01-01T00:00:00.000Z" SaveFulfilled
                  sample_one_client sample_list_frame H
                  (sample_list_frame_invalid sample_one_client))).
Defined.

(** X4: the close that the list frame causes. *)
Lemma close_only_on_invalid_session_witness :
  (1%nat, 1008, "Invalid session")
    ∈ closes (trace_of (on_message sample_conn1 "2026-01-01T00:00:00.000Z" SaveFulfilled
                          (JSONText sample_list_frame) sample_one_client)) /\
  exists parsed,
    JSONText sample_list_frame = JSONText parsed /\ ~ session_valid sample_one_client parsed.
Proof.
  assert (H : (1%nat, 1008, "Invalid session")
                ∈ closes (trace_of (on_message sample_conn1 "2026-01-01T00:00:00.000Z"
                                      SaveFulfilled (JSONText sample_list_frame)
                                      sample_one_client))) by left.
  split; [exact H|].
  exact (proj2 (proj2 (close_only_on_invalid_session sample_conn1
                         "2026-01-01T00:00:00.000Z" SaveFulfilled _ sample_one_client
                         _ _ _ H))).
Defined.

(** X5: the echo of "hello" shows that the frame had a valid session. *)
Lemma dispatch_needs_valid_session_witness :
  exists parsed,
    JSONText (JObj (sample_chat_props "key1-1000")) = JSONText parsed /\
    session_valid sample_one_client parsed.
Proof.
  apply (dispatch_needs_valid_session sample_conn1 "2026-01-01T00:00:00.000Z" SaveFulfilled).
  left. vm_compute. intros H. discriminate H.
Defined.

(** X7: a frame whose whole value is a list. *)
Lemma frame_without_string_session_id_closed_witness :
  closes (trace_of (on_message sample_conn1 "2026-01-01T00:00:00.000Z" SaveFulfilled
                      (JSONText sample_list_frame) sample_one_client))
  = [(1%nat, 1008, "Invalid session")].
Proof.
  refine (proj1 (frame_without_string_session_id_closed sample_conn1
                   "2026-01-01T00:00:00.000Z" SaveFulfilled sample_one_client
                   sample_list_frame _ _)).
  - discriminate.
  - intros props s H. discriminate H.
Defined.

(** X11: two sockets that connect with the key "key1" at time 1000. *)
Lemma session_id_injective_witness : "key1" = "key1" /\ 1000 = 1000.
Proof.
  refine (session_id_injective 1%nat "10.0.0.1" "key1" 1%nat 1000 initial
            2%nat "10.0.0.2" "key1" 2%nat 1000 sample_one_client
            _ _ _ _ eq_refl eq_refl eq_refl); lia.
Defined.

Lemma sample_two_clients_reachable : reachable sample_two_clients.
Proof.
  exists [EvUpgrade (sample_request "key1") 1%nat 1%nat 1000 1000;
          EvUpgrade (sample_request "key2") 2%nat 2%nat 2000 2000].
  reflexivity.
Defined.

(** X12: the registry with two clients. *)
Lemma reachable_sessions_keyed_witness :
  reachable sample_two_clients /\
  sessions_keyed sample_two_clients /\
  activeIsolatedSessions sample_two_clients !! "" = None.
Proof.
  split; [exact sample_two_clients_reachable|].
  exact (reachable_sessions_keyed sample_two_clients sample_two_clients_reachable).
Defined.

Lemma sample_device_connected_reachable : reachable sample_device_connected.
Proof.
  exists [EvCreateDeviceIsolatedServer 3000;
          EvCreateForDevice 0%nat "a" 1%nat 1%nat;
          EvDeviceConnection sample_handle 7%nat 1000 1000].
  reflexivity.
Defined.

(** X17: device "a", last active at 1000, at the sweep of 1801000:
    exactly thirty minutes, so it stays. *)
Lemma reaper_retains_within_threshold_witness :
  amap_get "a" (activeConnections sample_device_connected) = Some sample_record /\
  1801000 - lastActive sample_record <= 1800000 /\
  amap_get "a" (activeConnections
                  (state_of (cleanupInactiveDevices 1801000 sample_device_connected)))
  = Some sample_record.
Proof.
  assert (H1 : amap_get "a" (activeConnections sample_device_connected) = Some sample_record)
    by (vm_compute; reflexivity).
  assert (H2 : 1801000 - lastActive sample_record <= 1800000) by (simpl; lia).
  split; [exact H1|]. split; [exact H2|].
  exact (reaper_retains_within_threshold 1801000 sample_device_connected "a" sample_record
           sample_device_connected_reachable H1 H2).
Defined.

(** X18: device "a" after its handle was closed, one millisecond past
    the threshold: the sweep completes and removes it. *)
Lemma reaper_removes_idle_untracked_witness :
  result_of (cleanupInactiveDevices 1801001 sample_handle_closed) = Ret tt /\
  amap_get "a" (activeConnections
                  (state_of (cleanupInactiveDevices 1801001 sample_handle_closed)))
  = None.
Proof.
  assert (Hc : activeConnections sample_handle_closed = [("a", sample_record)])
    by (vm_compute; reflexivity).
  assert (H : forall k conn, (k, conn) ∈ activeConnections sample_handle_closed ->
                idle 1801001 conn = true -> deviceServers sample_handle_closed !! k = None).
  { intros k conn Hin _. rewrite Hc in Hin. apply list_elem_of_singleton in Hin.
    injection Hin as -> _. vm_compute. reflexivity. }
  destruct (reaper_removes_idle_untracked 1801001 sample_handle_closed H) as [H1 H2].
  split; [exact H1|].
  apply (H2 "a" sample_record); [rewrite Hc; left | reflexivity].
Defined.

(** X19: two workers, with a connection and a worker exit in between. *)
Lemma worker_ports_numbered_witness :
  forks (run sample_spawns initial).2
  = [["--device-id"; "a"; "--port"; "3000"]; ["--device-id"; "b"; "--port"; "3001"]].
Proof.
  refine (worker_ports_numbered sample_spawns _). simpl. lia.
Defined.

(** X20: two workers for device "a" from module load. *)
Lemma replaced_worker_exit_unregisters_running_witness :
  exists p1 p2,
    result_of (createIsolatedProcess "a" 1%nat initial) = Ret p1 /\
    result_of (createIsolatedProcess "a" 2%nat
                 (state_of (createIsolatedProcess "a" 1%nat initial))) = Ret p2 /\
    ph_port p1 < ph_port p2 /\
    activeProcesses
      (state_of (on_worker_exit "a"
                   (state_of (createIsolatedProcess "a" 2%nat
                                (state_of (createIsolatedProcess "a" 1%nat initial))))))
      !! "a" = None.
Proof.
  destruct (replaced_worker_exit_unregisters_running "a" 1%nat 2%nat initial)
    as (p1 & p2 & H1 & H2 & H3 & _ & H5); [simpl; lia|].
  exists p1, p2. repeat split; assumption.
Defined.

(** X21: the first device server of a factory with base port 3000. *)
Lemma createForDevice_port_range_witness :
  localPortCounters sample_factory !! 0%nat = Some 3000 /\
  localPortCounters (state_of (createForDevice 0%nat "a" 1%nat 1%nat sample_factory))
    !! 0%nat = Some 3001 /\
  trace_of (createForDevice 0%nat "a" 1%nat 1%nat sample_factory)
  = [http_listen 1%nat 3000].
Proof.
  assert (H : localPortCounters sample_factory !! 0%nat = Some 3000)
    by (vm_compute; reflexivity).
  assert (Hs : safe_integer 3000) by (unfold safe_integer; lia).
  destruct (createForDevice_port_range 0%nat "a" 1%nat 1%nat sample_factory 3000 H Hs)
    as (H1 & H2 & _).
  split; [exact H|]. split; [exact H1|].
  apply H2. lia.
Defined.

(** X24: the first worker, for "device-1". *)
Lemma fork_arguments_roundtrip_witness :
  exists handle args,
    result_of (createIsolatedProcess "device-1" 1%nat initial) = Ret handle /\
    forks (trace_of (createIsolatedProcess "device-1" 1%nat initial)) = [args] /\
    Worker.parse_args args
    = {| Worker.deviceId := Some "device-1"; Worker.port := Some (ph_port handle) |}.
Proof.
  apply (fork_arguments_roundtrip "device-1" 1%nat initial). discriminate.
Defined.

(** X26: a worker told to use port 70000. *)
Lemma worker_port_out_of_range_witness :
  Worker.main (worker_args "device-1" 70000)
  = ({| Worker.deviceId := Some "device-1"; Worker.port := Some 70000 |},
     [Worker.console (Worker.LogStarting (Some "device-1"))], Throw RangeError).
Proof.
  apply (worker_port_out_of_range "device-1" 70000);
    [discriminate | unfold safe_integer; lia | lia].
Defined.
